(** * Selector widgets of the filter-configuration UI

    A shallow embedding of [ChartSelect.tsx] (the asynchronous chart picker),
    of [ColumnSelect] (its options and the effects that reset the column
    field) and of the dataset utilities [getDatasetId] and
    [createVerboseMap], with the properties the specification states about
    them and further properties read off the code.

    Conventions of the embedding:
    - identifiers are JavaScript numbers holding integers, modelled as [Z]
      ([NaN] and fractions are not identifiers and are left out);
    - a React state cell is a field of the record [Component]; a setter call
      is a command ([Cmd]) that the interpreter [exec] applies;
    - a promise returned by [SupersetClient.get] is an entry of the list
      [pending]; its settlement is an event carrying the outcome, so
      responses may arrive in any order;
    - [t] (the translation function) is the identity. *)

From stdpp Require Import base gmap strings list pretty.
From Stdlib Require Import ZArith Lia Ascii.

Open Scope Z_scope.

(** ** JavaScript values *)

(** What the host select may hand to [handleChange] ([newValue: any]) and
    what in turn reaches the parent's [onChange]. *)
#[warnings="-register-all"]
Inductive JsVal : Type :=
  | JUndefined
  | JNull
  | JNum (n : Z)
  | JStr (s : string)
  | JObj (fields : list (string * JsVal)).

(** [obj[key]] on an object literal: the first binding of [key]. *)
Fixpoint getField (key : string) (fields : list (string * JsVal)) : option JsVal :=
  match fields with
  | [] => None
  | (k, v) :: rest => if String.eqb k key then Some v else getField key rest
  end.

(** The prop [value?: number | null]. *)
Inductive ValueProp : Type :=
  | VUndefined
  | VNull
  | VNum (n : Z).

#[global] Instance ValueProp_eq_dec : EqDecision ValueProp.
Proof. solve_decision. Defined.

(** JavaScript truthiness of [value]: [undefined], [null] and [0] are falsy.
    The result is the number itself when it is truthy. *)
Definition truthy (value : ValueProp) : option Z :=
  match value with
  | VNum n => if n =? 0 then None else Some n
  | VUndefined | VNull => None
  end.

(** Truthiness of the optional numeric prop [datasetId?: number]. *)
Definition truthyId (datasetId : option Z) : option Z :=
  match datasetId with
  | Some d => if d =? 0 then None else Some d
  | None => None
  end.

(** Number to string inside a template literal, for integers. *)
Definition toString (n : Z) : string := pretty n.

(** [s.includes(sub)]: [sub] occurs somewhere inside [s]. *)
Definition includes (s sub : string) : Prop :=
  exists pre post : string, s = pre +:+ sub +:+ post.

(** ** Data model of [ChartSelect] *)

Module ChartOption.
Record t : Type := mk {
  value : Z;
  label : string;
  viz_type : option string
}.
End ChartOption.

(** One chart as the REST API returns it ([chart: any] in the source; the
    three fields the component reads). *)
Module Chart.
Record t : Type := mk {
  id : Z;
  slice_name : string;
  viz_type : string
}.
End Chart.

Inductive FilterValue : Type :=
  | FStr (s : string)
  | FNum (n : Z).

Module Filter.
Record t : Type := mk {
  col : string;
  opr : string;
  value : FilterValue
}.
End Filter.

(** The object handed to [rison.encode]; the encoding itself belongs to the
    rison library and is not modelled. *)
Module Query.
Record t : Type := mk {
  filters : list Filter.t;
  page : Z;
  page_size : Z;
  order_column : string;
  order_direction : string
}.
End Query.

(** [response.json] of the list endpoint. *)
Module ListResponse.
Record t : Type := mk {
  count : Z;
  result : list Chart.t
}.
End ListResponse.

(** What [loadChartOptions] resolves to. *)
Module Page.
Record t : Type := mk {
  data : list ChartOption.t;
  totalCount : Z
}.
End Page.

(** ** [loadChartOptions] *)

(** The label template [`${chart.slice_name} (${chart.viz_type})`]. *)
Definition chartLabel (slice_name viz_type : string) : string :=
  slice_name +:+ " (" +:+ viz_type +:+ ")".

Definition chartToOption (chart : Chart.t) : ChartOption.t :=
  ChartOption.mk (Chart.id chart)
                 (chartLabel (Chart.slice_name chart) (Chart.viz_type chart))
                 (Some (Chart.viz_type chart)).

(** The array [filters] after the two [if] blocks; [input] is truthy when it
    is not the empty string, [datasetId] when it is a non-zero number. *)
Definition loadChartOptions_filters (datasetId : option Z) (input : string)
  : list Filter.t :=
  let filters := [] in
  let filters :=
    if String.eqb input "" then filters
    else filters ++ [Filter.mk "slice_name" "ct" (FStr input)] in
  let filters :=
    match truthyId datasetId with
    | Some d =>
        (filters ++ [Filter.mk "datasource_id" "eq" (FNum d)])
          ++ [Filter.mk "datasource_type" "eq" (FStr "table")]
    | None => filters
    end in
  filters.

(** The query object of the request [GET /api/v1/chart/?q=<rison>]. *)
Definition loadChartOptions_query (datasetId : option Z)
    (input : string) (page pageSize : Z) : Query.t :=
  Query.mk (loadChartOptions_filters datasetId input)
           page pageSize "slice_name" "asc".

(** The defaults of the parameters: [input = ''], [page = 0],
    [pageSize = 50]. *)
Definition loadChartOptions_default_query (datasetId : option Z) : Query.t :=
  loadChartOptions_query datasetId "" 0 50.

(** The value the promise resolves to, from the response body. *)
Definition loadChartOptions_result (json : ListResponse.t) : Page.t :=
  Page.mk (map chartToOption (ListResponse.result json))
          (ListResponse.count json).

(** The fixture [mockChartData] of [ChartSelect.test.tsx]. *)
Definition mockChartData : ListResponse.t :=
  ListResponse.mk 2
    [ Chart.mk 1 "Test Chart 1" "table";
      Chart.mk 2 "Test Chart 2" "bar" ].

(** ** The component: state cells, commands and handlers *)

(** An unsettled promise of [SupersetClient.get] for one chart: [issuedFor]
    is the [value] captured by the closures of the chain, [endpoint] the URL
    that was requested. *)
Record Pending : Type := mkPending {
  issuedFor : Z;
  endpoint : string
}.

(** How such a promise settles: fulfilled with a body whose [json.result] is
    a chart or is missing, or rejected. *)
Inductive Outcome : Type :=
  | Fulfilled (result : option Chart.t)
  | Rejected (error : string).

(** What a handler of the component does to the outside of its own body. *)
Inductive Cmd : Type :=
  | SetSelectedChart (chart : option ChartOption.t)
  | SetIsLoadingSelected (loading : bool)
  | Get (request : Pending)
  | ConsoleError (message : string)
  | OnChange (arg : JsVal).

(** A mounted [ChartSelect]: the props of the last render, the two state
    cells, the promises still in flight (oldest first), and the calls the
    parent's [onChange] has received (oldest first). *)
Record Component : Type := mkComponent {
  value : ValueProp;
  clearable : bool;
  selectedChart : option ChartOption.t;
  isLoadingSelected : bool;
  pending : list Pending;
  onChangeCalls : list JsVal
}.

Definition exec1 (w : Component) (c : Cmd) : Component :=
  match c with
  | SetSelectedChart chart =>
      mkComponent (value w) (clearable w) chart (isLoadingSelected w)
                  (pending w) (onChangeCalls w)
  | SetIsLoadingSelected loading =>
      mkComponent (value w) (clearable w) (selectedChart w) loading
                  (pending w) (onChangeCalls w)
  | Get request =>
      mkComponent (value w) (clearable w) (selectedChart w)
                  (isLoadingSelected w) (pending w ++ [request])
                  (onChangeCalls w)
  | ConsoleError _ => w
  | OnChange arg =>
      mkComponent (value w) (clearable w) (selectedChart w)
                  (isLoadingSelected w) (pending w)
                  (onChangeCalls w ++ [arg])
  end.

Definition exec (w : Component) (cmds : list Cmd) : Component :=
  foldl exec1 w cmds.

(** The guard [selectedChart && selectedChart.value === value]. *)
Definition alreadyLoaded (selectedChart : option ChartOption.t) (v : Z) : bool :=
  match selectedChart with
  | Some chart => ChartOption.value chart =? v
  | None => false
  end.

(** The body of [useEffect(..., [value])], up to the promise chain it
    leaves behind. *)
Definition valueEffect (value : ValueProp)
    (selectedChart : option ChartOption.t) : list Cmd :=
  match truthy value with
  | None => [SetSelectedChart None]
  | Some v =>
      if alreadyLoaded selectedChart v then []
      else [ SetIsLoadingSelected true;
             Get (mkPending v ("/api/v1/chart/" +:+ toString v)) ]
  end.

(** The [.then] callback; it throws when [json.result] is missing. *)
Definition onFulfilled (result : option Chart.t) : option (list Cmd) :=
  match result with
  | Some chart => Some [SetSelectedChart (Some (chartToOption chart))]
  | None => None
  end.

(** The option the [.catch] callback stores for the captured [value]. *)
Definition fallbackOption (v : Z) : ChartOption.t :=
  ChartOption.mk v ("Chart " +:+ toString v) None.

Definition onRejected (v : Z) : list Cmd :=
  [ ConsoleError "Failed to load selected chart:";
    SetSelectedChart (Some (fallbackOption v)) ].

Definition onFinally : list Cmd := [SetIsLoadingSelected false].

(** The whole chain [.then(...).catch(...).finally(...)] for a promise
    issued for [v]. *)
Definition settle (v : Z) (o : Outcome) : list Cmd :=
  match o with
  | Fulfilled result =>
      match onFulfilled result with
      | Some cmds => cmds ++ onFinally
      | None => onRejected v ++ onFinally
      end
  | Rejected _ => onRejected v ++ onFinally
  end.

(** [useMemo(..., [value, selectedChart, isLoadingSelected])]: what is
    handed to the host select as its value. *)
Definition selectedValue (value : ValueProp)
    (selectedChart : option ChartOption.t) (isLoadingSelected : bool)
  : option ChartOption.t :=
  match truthy value with
  | None => None
  | Some v =>
      if isLoadingSelected then Some (ChartOption.mk v "Loading..." None)
      else match selectedChart with
           | Some chart => Some chart
           | None => Some (ChartOption.mk v "Loading..." None)
           end
  end.

Definition displayed (w : Component) : option ChartOption.t :=
  selectedValue (value w) (selectedChart w) (isLoadingSelected w).

(** [handleChange]: the three shapes AsyncSelect may pass. *)
Definition handleChange (newValue : JsVal) : list Cmd :=
  match newValue with
  | JNull | JUndefined => [OnChange JNull]
  | JObj fields =>
      match getField "value" fields with
      | Some v => [OnChange v]
      | None => [OnChange newValue]
      end
  | _ => [OnChange newValue]
  end.

(** An option as the object the host select passes back when it is
    picked. *)
Definition optionObject (o : ChartOption.t) : JsVal :=
  JObj ([ ("value", JNum (ChartOption.value o));
          ("label", JStr (ChartOption.label o)) ]
        ++ match ChartOption.viz_type o with
           | Some ty => [("viz_type", JStr ty)]
           | None => []
           end).

(** ** Events *)

(** The empty value the host select reports when its clear control is
    used. *)
Inductive ClearPayload : Type :=
  | ClearNull
  | ClearUndefined.

Definition clearValue (p : ClearPayload) : JsVal :=
  match p with
  | ClearNull => JNull
  | ClearUndefined => JUndefined
  end.

Inductive Event : Type :=
  | Render (newValue : ValueProp)
  | Settle (i : nat) (o : Outcome)
  | Change (newValue : JsVal)
  | Clear (p : ClearPayload).

Definition setValue (w : Component) (v : ValueProp) : Component :=
  mkComponent v (clearable w) (selectedChart w) (isLoadingSelected w)
              (pending w) (onChangeCalls w).

Definition dropPending (w : Component) (i : nat) : Component :=
  mkComponent (value w) (clearable w) (selectedChart w)
              (isLoadingSelected w) (delete i (pending w))
              (onChangeCalls w).

(** One turn of the event loop.
    - [Render v]: the parent renders with [value = v]; the effect runs only
      when [v] differs from the value of the previous render.
    - [Settle i o]: the [i]-th promise in flight settles with [o].
    - [Change x]: the host select calls [handleChange(x)].
    - [Clear p]: the clear control, present only when [allowClear] is set. *)
Definition step (w : Component) (e : Event) : Component :=
  match e with
  | Render v =>
      if decide (v = value w) then w
      else exec (setValue w v) (valueEffect v (selectedChart w))
  | Settle i o =>
      match pending w !! i with
      | Some p => exec (dropPending w i) (settle (issuedFor p) o)
      | None => w
      end
  | Change x => exec w (handleChange x)
  | Clear p =>
      if clearable w then exec w (handleChange (clearValue p)) else w
  end.

Definition run (w : Component) (es : list Event) : Component :=
  foldl step w es.

(** First render and first run of the effect. *)
Definition mount (v : ValueProp) (clearable : bool) : Component :=
  let w := mkComponent v clearable None false [] [] in
  exec w (valueEffect v (selectedChart w)).

(** The commands among [cmds] that start a request. *)
Definition fetches (cmds : list Cmd) : list Pending :=
  omap (fun c => match c with Get r => Some r | _ => None end) cmds.

(** ** The selection state of the specification, read off the component *)

Inductive SelectionState : Type :=
  | Empty
  | Resolving (v : Z)
  | Resolved (o : ChartOption.t).

(** Follows the specification's data model: Empty when nothing is shown as
    selected, Resolving while the placeholder is shown for the external
    identifier, Resolved when a stored option is shown. *)
Definition selectionState (w : Component) : SelectionState :=
  match truthy (value w) with
  | None => Empty
  | Some v =>
      if isLoadingSelected w then Resolving v
      else match selectedChart w with
           | Some chart => Resolved chart
           | None => Resolving v
           end
  end.

(** ** Columns and metrics of a dataset *)

(** A column of a dataset, with the fields the selectors and
    [createVerboseMap] read; [verbose_name] is [None] when it is [undefined]
    or [null]. *)
Module Column.
Record t : Type := mk {
  column_name : string;
  verbose_name : option string;
  is_dttm : bool
}.
End Column.

Module Metric.
Record t : Type := mk {
  metric_name : string;
  verbose_name : option string
}.
End Metric.

(** ** [ColumnSelect]: the reset of the column field *)

Module ColumnSelect.

(** One entry of the argument of [form.setFields]. *)
Record FieldData : Type := mkFieldData {
  name : list string;
  touched : bool;
  value : option string
}.

(** What the form keeps for a field: whether it was touched and its value,
    [None] standing for [null]. *)
Record FieldState : Type := mkFieldState {
  field_touched : bool;
  field_value : option string
}.

(** The form instance, as far as the component uses it: the fields by name
    path, and the number of [setFields] calls it has received (what the
    mock of the test file counts). *)
Record Form : Type := mkForm {
  fields : gmap (list string) FieldState;
  setFieldsCalls : nat
}.

Definition setField (m : gmap (list string) FieldState) (f : FieldData)
  : gmap (list string) FieldState :=
  <[ name f := mkFieldState (touched f) (value f) ]> m.

Definition setFields (form : Form) (fs : list FieldData) : Form :=
  mkForm (foldl setField (fields form) fs) (S (setFieldsCalls form)).

(** [resetColumnField], with the props [filterId] and [formField] it
    closes over. *)
Definition resetColumnField (filterId formField : string) (form : Form) : Form :=
  setFields form [ mkFieldData ["filters"; filterId; formField] false None ].

(** The callback given to [useChangeEffect(datasetId, ...)]: [previous] is
    the dataset identifier of the previous render ([None] for
    [undefined]). *)
Definition onDatasetChange (filterId formField : string)
    (datasetId previous : option Z) (form : Form) : Form :=
  match previous with
  | Some _ =>
      if decide (previous = datasetId) then form
      else resetColumnField filterId formField form
  | None => form
  end.

(** Modelled from the spec: the hook [useChangeEffect] of the core package is
    not among the sources; the specification only says that the column
    selector resets on scope change, so the hook is taken to call its
    callback with the previous value whenever the watched value differs
    from the one of the previous render. *)
Definition useChangeEffect {T : Type} `{EqDecision T}
    (value previous : T) (callback : T -> Form -> Form) (form : Form) : Form :=
  if decide (value = previous) then form else callback previous form.

(** A render of [ColumnSelect] in which the prop [datasetId] took the place
    of [previous]; only the dataset-change effect is followed. *)
Definition rerender (filterId formField : string)
    (previous datasetId : option Z) (form : Form) : Form :=
  useChangeEffect datasetId previous
    (onDatasetChange filterId formField datasetId) form.

(** The prop [value?: string | string[]]. *)
Inductive ColumnValue : Type :=
  | CVUndefined
  | CVString (s : string)
  | CVArray (l : list string).

(** Truthiness of [value]: a non-empty string, or any array (the empty
    array is truthy too). *)
Definition valueTruthy (value : ColumnValue) : bool :=
  match value with
  | CVUndefined => false
  | CVString s => negb (String.eqb s "")
  | CVArray _ => true
  end.

Module SelectOption.
Record t : Type := mk {
  label : string;
  value : string
}.
End SelectOption.

(** The memo [options]: the columns that pass [filterValues], by name. *)
Definition options (columns : list Column.t) (filterValues : Column.t -> bool)
  : list SelectOption.t :=
  map (fun column : string => SelectOption.mk column column)
      (map Column.column_name (List.filter filterValues columns)).

(** The memo [currentColumn]: [columns.find(column => column.column_name
    === value)]; the strict comparison with [undefined] or with an array is
    never true. *)
Definition currentColumn (columns : list Column.t) (value : ColumnValue)
  : option Column.t :=
  match value with
  | CVString s =>
      List.find (fun column => String.eqb (Column.column_name column) s) columns
  | CVUndefined | CVArray _ => None
  end.

(** The first effect: reset when the current column does not pass
    [filterValues]. *)
Definition filterEffect (filterId formField : string)
    (filterValues : Column.t -> bool) (columns : list Column.t)
    (value : ColumnValue) (form : Form) : Form :=
  match currentColumn columns value with
  | Some column =>
      if negb (filterValues column) then resetColumnField filterId formField form
      else form
  | None => form
  end.

(** [Array.isArray(value) ? value : [value]], reached only for a truthy
    [value]. *)
Definition lookupValue (value : ColumnValue) : list string :=
  match value with
  | CVArray l => l
  | CVString s => [s]
  | CVUndefined => []
  end.

(** [columns.some(column => lookupValue?.includes(column.column_name))]. *)
Definition valueExists (columns : list Column.t) (value : ColumnValue) : bool :=
  existsb (fun column =>
             existsb (String.eqb (Column.column_name column)) (lookupValue value))
          columns.

(** The third effect: 'Validate that current value exists in new
    dataset'. *)
Definition validateEffect (filterId formField : string)
    (columns : list Column.t) (value : ColumnValue) (form : Form) : Form :=
  if valueTruthy value && (0 <? length columns)%nat then
    if negb (valueExists columns value)
    then resetColumnField filterId formField form
    else form
  else form.

(** The three effects of the first render, in the order they are declared;
    the dataset-change effect sees no previous dataset. *)
Definition mountEffects (filterId formField : string)
    (filterValues : Column.t -> bool) (columns : list Column.t)
    (datasetId : option Z) (value : ColumnValue) (form : Form) : Form :=
  validateEffect filterId formField columns value
    (rerender filterId formField None datasetId
       (filterEffect filterId formField filterValues columns value form)).

End ColumnSelect.

(** ** Dataset utilities: [getDatasetId] and [createVerboseMap] *)

(** [s.split('__')[0]]: the part of [s] before the first occurrence of the
    separator, the whole of [s] when there is none. *)
Fixpoint firstSegment (s : string) : string :=
  match s with
  | EmptyString => EmptyString
  | String c rest =>
      if String.prefix "__" s then EmptyString
      else String c (firstSegment rest)
  end.

(** [getDatasetId]. The conversion [Number(...)] of a string is the
    language's and is a parameter [NumberOfString]; on a number [Number] is
    the identity, written [ofNumber] for the embedding of [Z]. *)
Definition getDatasetId {Num : Type} (NumberOfString : string -> Num)
    (ofNumber : Z -> Num) (datasetId : string + Z) : Num :=
  match datasetId with
  | inl s => NumberOfString (firstSegment s)
  | inr n => ofNumber n
  end.

(** The characters of [s] include no underscore. *)
Fixpoint noUnderscore (s : string) : bool :=
  match s with
  | EmptyString => true
  | String c rest => negb (Ascii.eqb c "_"%char) && noUnderscore rest
  end.

Module Dataset.
Record t : Type := mk {
  columns : option (list Column.t);
  metrics : option (list Metric.t)
}.
End Dataset.

(** Modelled from the spec: [ensureIsArray] of the core package is not among
    the sources and the specification does not describe it; on the optional
    arrays it is applied to here it is taken to return the array itself,
    and the empty array for [undefined]. *)
Definition ensureIsArray {A : Type} (value : option (list A)) : list A :=
  match value with
  | Some l => l
  | None => []
  end.

(** [verbose_name || name]: the name when [verbose_name] is [undefined],
    [null] or the empty string. *)
Definition verboseOr (verbose_name : option string) (name : string) : string :=
  match verbose_name with
  | Some s => if String.eqb s "" then name else s
  | None => name
  end.

(** [verbose_map[key] = value] on the object literal, as a map of its own
    properties: the key ["__proto__"] reaches the prototype setter, which
    ignores a string, so no property is created for it. *)
Definition assign (verbose_map : gmap string string) (key value : string)
  : gmap string string :=
  if String.eqb key "__proto__" then verbose_map
  else <[ key := value ]> verbose_map.

Definition assignColumn (verbose_map : gmap string string) (column : Column.t)
  : gmap string string :=
  assign verbose_map (Column.column_name column)
         (verboseOr (Column.verbose_name column) (Column.column_name column)).

Definition assignMetric (verbose_map : gmap string string) (metric : Metric.t)
  : gmap string string :=
  assign verbose_map (Metric.metric_name metric)
         (verboseOr (Metric.verbose_name metric) (Metric.metric_name metric)).

(** [createVerboseMap]: the columns first, then the metrics. *)
Definition createVerboseMap (dataset : option Dataset.t) : gmap string string :=
  let verbose_map := ∅ in
  let verbose_map :=
    foldl assignColumn verbose_map
          (ensureIsArray (dataset ≫= Dataset.columns)) in
  let verbose_map :=
    foldl assignMetric verbose_map
          (ensureIsArray (dataset ≫= Dataset.metrics)) in
  verbose_map.

(** The verbose name the last column named [key] contributes. *)
Definition lastColumn (key : string) (columns : list Column.t) : option string :=
  (fun column =>
     verboseOr (Column.verbose_name column) (Column.column_name column))
  <$> List.find (fun column => String.eqb (Column.column_name column) key)
                (rev columns).

(** The verbose name the last metric named [key] contributes. *)
Definition lastMetric (key : string) (metrics : list Metric.t) : option string :=
  (fun metric =>
     verboseOr (Metric.verbose_name metric) (Metric.metric_name metric))
  <$> List.find (fun metric => String.eqb (Metric.metric_name metric) key)
                (rev metrics).

(** ** Traces of [ChartSelect] *)

(** The number of [onChange] calls an event makes, given the prop
    [clearable]. *)
Definition reports (clearable : bool) (e : Event) : nat :=
  match e with
  | Change _ => 1
  | Clear _ => if clearable then 1 else 0
  | Render _ | Settle _ _ => 0
  end.

(** The event is not a fulfilment whose chart carries another id than the
    one its request was issued for. *)
Definition honestEvent (w : Component) (e : Event) : bool :=
  match e with
  | Settle i (Fulfilled (Some chart)) =>
      match pending w !! i with
      | Some p => Chart.id chart =? issuedFor p
      | None => true
      end
  | _ => true
  end.

Fixpoint honestRun (w : Component) (es : list Event) : bool :=
  match es with
  | [] => true
  | e :: es' => honestEvent w e && honestRun (step w e) es'
  end.





(** ** Definitions used by the statements *)

Definition textFilter (input : string) : Filter.t :=
  Filter.mk "slice_name" "ct" (FStr input).

Definition datasetFilter (d : Z) : Filter.t :=
  Filter.mk "datasource_id" "eq" (FNum d).

Definition tableFilter : Filter.t :=
  Filter.mk "datasource_type" "eq" (FStr "table").

(** The filter sequence as the specification words it: the text-contains
    predicate when the search text is not empty, and one equality predicate
    on the scoping field when the scope filter is set. *)
Definition composedFilters (searchText : string) (scopeFilter : option Z)
  : list Filter.t :=
  (if decide (searchText = "") then [] else [textFilter searchText])
  ++ match scopeFilter with
     | Some d => [datasetFilter d]
     | None => []
     end.

(** The filter sequence the code builds, case by case. *)
Definition scopedFilters (searchText : string) (datasetId : option Z)
  : list Filter.t :=
  (if decide (searchText = "") then [] else [textFilter searchText])
  ++ match datasetId with
     | Some d => if decide (d = 0) then [] else [datasetFilter d; tableFilter]
     | None => []
     end.

(** A response of the by-identifier endpoint used to exhibit a stored option
    whose identifier is [0]. *)
Definition chartZero : Chart.t := Chart.mk 0 "X" "t".

(** A component showing chart 1 while the external value is 2. *)
Definition staleComponent : Component :=
  mkComponent (VNum 2) true
              (Some (ChartOption.mk 1 "Test Chart 1 (table)" (Some "table")))
              false [] [].

(** The option stored when a promise issued for [v] settles with [o]. *)
Definition settledOption (v : Z) (o : Outcome) : ChartOption.t :=
  match o with
  | Fulfilled (Some chart) => chartToOption chart
  | Fulfilled None | Rejected _ => fallbackOption v
  end.

(** A settlement that ends in the [.catch] callback. *)
Definition failed (o : Outcome) : bool :=
  match o with
  | Fulfilled (Some _) => false
  | Fulfilled None | Rejected _ => true
  end.

Definition chart1 : Chart.t := Chart.mk 1 "Test Chart 1" "table".
Definition chart2 : Chart.t := Chart.mk 2 "Test Chart 2" "bar".

(** The state of the race once B has been fulfilled: Resolved(2), with A
    still in flight. *)
Definition racedComponent : Component :=
  run (mount (VNum 1) true)
      [Render (VNum 2); Settle 1 (Fulfilled (Some chart2))].

(** The scenario of the test 'calls onChange with null when cleared': the
    component is rendered with [value = 1] and [clearable], the chart is
    loaded, and the parent callback is a mock that does not feed a new
    value back. *)
Definition loadedComponent : Component :=
  run (mount (VNum 1) true) [Settle 0 (Fulfilled (Some chart1))].

(** Every request the component ever has in flight was issued for a
    non-zero identifier, at the endpoint of that identifier. *)
Definition wellIssued (p : Pending) : Prop :=
  issuedFor p <> 0
  /\ endpoint p = "/api/v1/chart/" +:+ toString (issuedFor p).

(** * Properties *)

(** ** The list query *)

Lemma eqb_empty_decide (s : string) :
  String.eqb s "" = bool_decide (s = "").
Proof.
  destruct (String.eqb_spec s "") as [E | E].
  - by rewrite bool_decide_eq_true_2.
  - by rewrite bool_decide_eq_false_2.
Qed.

Lemma truthyId_decide (d : Z) :
  truthyId (Some d) = if decide (d = 0) then None else Some d.
Proof.
  unfold truthyId. destruct (Z.eqb_spec d 0); case_decide; done.
Qed.

Lemma loadChartOptions_filters_cases (datasetId : option Z) (input : string) :
  loadChartOptions_filters datasetId input = scopedFilters input datasetId.
Proof.
  unfold loadChartOptions_filters, scopedFilters.
  rewrite eqb_empty_decide.
  destruct (decide (input = "")) as [-> | Hne].
  - destruct datasetId as [d |]; [| reflexivity].
    rewrite truthyId_decide. by case_decide.
  - rewrite bool_decide_eq_false_2 by done.
    destruct datasetId as [d |]; [| reflexivity].
    rewrite truthyId_decide. by case_decide.
Qed.

(** C4, as stated, fails on the code: with [datasetId = 0] the scope is set
    but no equality predicate is issued, and with [datasetId = 123] the
    sequence carries a third predicate, on [datasource_type], so it is not
    the two-predicate composition. *)
Lemma C4_composed_filters_counterexample :
  loadChartOptions_filters (Some 0) "Chart" = [textFilter "Chart"]
  /\ (datasetFilter 0 ∉ loadChartOptions_filters (Some 0) "Chart")
  /\ loadChartOptions_filters (Some 123) "Chart"
     = [textFilter "Chart"; datasetFilter 123; tableFilter]
  /\ loadChartOptions_filters (Some 123) "Chart"
     <> composedFilters "Chart" (Some 123).
Proof.
  repeat split; try reflexivity.
  - intros H. cbv in H. apply list_elem_of_In in H.
    destruct H as [H | []]. discriminate H.
  - cbv. discriminate.
Qed.

(** C4 (amended): for every search text and dataset identifier, the filter
    sequence of the list request is, in this order, the text-contains
    predicate on [slice_name] when the search text is not empty, and, when
    [datasetId] is a non-zero number, the equality predicate on
    [datasource_id] with that number followed by the equality predicate
    [datasource_type = 'table']; nothing else. With [datasetId = 123] it
    contains the equality predicate with value 123 next to the search-text
    predicate of any non-empty search text. *)
Theorem C4_filters_composition (datasetId : option Z) (input : string) :
  loadChartOptions_filters datasetId input = scopedFilters input datasetId
  /\ (forall f : Filter.t,
        f ∈ loadChartOptions_filters datasetId input <->
        (input <> "" /\ f = textFilter input)
        \/ (exists d, datasetId = Some d /\ d <> 0
                      /\ (f = datasetFilter d \/ f = tableFilter)))
  /\ (datasetFilter 123 ∈ loadChartOptions_filters (Some 123) input)
  /\ (input <> "" ->
      loadChartOptions_filters (Some 123) input
      = [textFilter input; datasetFilter 123; tableFilter])
  /\ Query.filters (loadChartOptions_query datasetId input 0 50)
     = loadChartOptions_filters datasetId input.
Proof.
  split; [apply loadChartOptions_filters_cases |].
  split; [| split; [| split; [| reflexivity]]].
  - intros f. rewrite loadChartOptions_filters_cases. unfold scopedFilters.
    rewrite elem_of_app. split.
    + intros [H | H].
      * left. case_decide; [by apply elem_of_nil in H |].
        apply list_elem_of_singleton in H. done.
      * right. destruct datasetId as [d |]; [| by apply elem_of_nil in H].
        case_decide; [by apply elem_of_nil in H |].
        exists d. repeat split; try done.
        apply elem_of_cons in H as [H | H]; [by left |].
        apply list_elem_of_singleton in H. by right.
    + intros [[Hne ->] | (d & -> & Hd & Hf)].
      * left. case_decide; [done |]. apply list_elem_of_singleton. done.
      * right. case_decide; [done |].
        destruct Hf as [-> | ->]; [by left |].
        right. by left.
  - rewrite loadChartOptions_filters_cases. unfold scopedFilters.
    apply elem_of_app. right. simpl. by left.
  - intros Hne. rewrite loadChartOptions_filters_cases. unfold scopedFilters.
    case_decide; done.
Qed.

(** C6: every list query asks for the results ordered by [slice_name],
    ascending, whatever the search text, page, page size and dataset. *)
Theorem C6_query_order (datasetId : option Z) (input : string) (page pageSize : Z) :
  Query.order_column (loadChartOptions_query datasetId input page pageSize)
  = "slice_name"
  /\ Query.order_direction (loadChartOptions_query datasetId input page pageSize)
     = "asc".
Proof. split; reflexivity. Qed.

(** ** Options built from a list response *)

Lemma loadChartOptions_result_options (charts : list Chart.t) :
  Forall2 (fun chart o =>
             ChartOption.value o = Chart.id chart
             /\ ChartOption.label o
                = Chart.slice_name chart +:+ " (" +:+ Chart.viz_type chart +:+ ")"
             /\ ChartOption.viz_type o = Some (Chart.viz_type chart))
          charts (map chartToOption charts).
Proof.
  induction charts as [| chart charts IH]; simpl.
  - constructor.
  - constructor; [| exact IH]. repeat split.
Qed.

Lemma handleChange_optionObject (o : ChartOption.t) :
  handleChange (optionObject o) = [OnChange (JNum (ChartOption.value o))].
Proof. reflexivity. Qed.

Lemma handleChange_number (n : Z) :
  handleChange (JNum n) = [OnChange (JNum n)].
Proof. reflexivity. Qed.

(** C7: for the search text "Chart", page 0 and page size 50 the request
    carries the text predicate; for the mock response of the test file the
    options are exactly "Test Chart 1 (table)" and "Test Chart 2 (bar)",
    with the items' ids as values and [totalCount] equal to [count]; every
    option of every response has the label "{name} ({type})" and the id as
    value; and picking the first option, whether the host hands over the
    option object or the bare value, calls [onChange] with 1 and nothing
    else. *)
Theorem C7_mock_list_scenario :
  loadChartOptions_query None "Chart" 0 50
  = Query.mk [textFilter "Chart"] 0 50 "slice_name" "asc"
  /\ loadChartOptions_result mockChartData
     = Page.mk [ ChartOption.mk 1 "Test Chart 1 (table)" (Some "table");
                 ChartOption.mk 2 "Test Chart 2 (bar)" (Some "bar") ] 2
  /\ map ChartOption.label (Page.data (loadChartOptions_result mockChartData))
     = ["Test Chart 1 (table)"; "Test Chart 2 (bar)"]
  /\ (forall json : ListResponse.t,
        Page.totalCount (loadChartOptions_result json) = ListResponse.count json
        /\ Forall2 (fun chart o =>
                      ChartOption.value o = Chart.id chart
                      /\ ChartOption.label o
                         = Chart.slice_name chart +:+ " ("
                           +:+ Chart.viz_type chart +:+ ")"
                      /\ ChartOption.viz_type o = Some (Chart.viz_type chart))
                   (ListResponse.result json)
                   (Page.data (loadChartOptions_result json)))
  /\ (forall (w : Component) (picked : JsVal),
        (Some picked
         = optionObject <$> head (Page.data (loadChartOptions_result mockChartData))
         \/ picked = JNum 1) ->
        handleChange picked = [OnChange (JNum 1)]
        /\ onChangeCalls (step w (Change picked)) = onChangeCalls w ++ [JNum 1]
        /\ selectedChart (step w (Change picked)) = selectedChart w
        /\ pending (step w (Change picked)) = pending w).
Proof.
  split; [reflexivity |]. split; [reflexivity |]. split; [reflexivity |].
  split.
  - intros json. split; [reflexivity |].
    apply loadChartOptions_result_options.
  - intros w picked [H | ->].
    + simpl in H. injection H as ->. repeat split.
    + repeat split.
Qed.

(** ** The effect on the external value *)

Lemma truthy_Some (value : ValueProp) (v : Z) :
  truthy value = Some v <-> value = VNum v /\ v <> 0.
Proof.
  destruct value as [| | n]; simpl.
  - split; [discriminate | intros [? _]; discriminate].
  - split; [discriminate | intros [? _]; discriminate].
  - destruct (Z.eqb_spec n 0) as [-> | Hn].
    + split; [discriminate | intros [[= <-] ?]; done].
    + split; [intros [= <-]; done | intros [[= <-] _]; done].
Qed.

Lemma truthy_nonzero (v : Z) : v <> 0 -> truthy (VNum v) = Some v.
Proof. intros Hv. by apply truthy_Some. Qed.

Lemma alreadyLoaded_true (selectedChart : option ChartOption.t) (v : Z) :
  alreadyLoaded selectedChart v = true <->
  exists o, selectedChart = Some o /\ ChartOption.value o = v.
Proof.
  destruct selectedChart as [o |]; simpl.
  - rewrite Z.eqb_eq. split.
    + intros H. by exists o.
    + intros (o' & [= <-] & H). done.
  - split; [discriminate | intros (o & H & _); discriminate].
Qed.

(** The effect issues a request exactly when the value is truthy and the
    stored option is not for it. *)
Lemma valueEffect_fetches (value : ValueProp) (sc : option ChartOption.t) :
  fetches (valueEffect value sc)
  = match truthy value with
    | Some v =>
        if alreadyLoaded sc v then []
        else [mkPending v ("/api/v1/chart/" +:+ toString v)]
    | None => []
    end.
Proof.
  unfold valueEffect. destruct (truthy value) as [v |]; [| reflexivity].
  destruct (alreadyLoaded sc v); reflexivity.
Qed.

Lemma selectionState_displayed (w : Component) :
  match selectionState w with
  | Empty => displayed w = None
  | Resolving v =>
      displayed w = Some (ChartOption.mk v "Loading..." None)
      /\ value w = VNum v
  | Resolved o => displayed w = Some o /\ selectedChart w = Some o
  end.
Proof.
  unfold selectionState, displayed, selectedValue.
  destruct (truthy (value w)) as [v |] eqn:Hv; [| reflexivity].
  apply truthy_Some in Hv as [Hv _].
  destruct (isLoadingSelected w); [done |].
  destruct (selectedChart w); done.
Qed.

(** Rendering with [null] from any state: nothing is displayed, nothing is
    requested, nothing is reported. *)
Lemma render_null_state (w : Component) :
  selectionState (step w (Render VNull)) = Empty
  /\ pending (step w (Render VNull)) = pending w
  /\ onChangeCalls (step w (Render VNull)) = onChangeCalls w.
Proof.
  unfold step. destruct (decide (VNull = value w)) as [E | E].
  - unfold selectionState. rewrite <- E. repeat split.
  - repeat split.
Qed.

(** C5: when the external value becomes [null], the effect only clears the
    stored option and starts no request; afterwards nothing is displayed as
    selected and the selection state is Empty, the promises in flight are
    the same as before, and the stored option is gone whenever the value
    really changed. The same holds for a mount with [null]. *)
Theorem C5_null_value_empties (w : Component) :
  valueEffect VNull (selectedChart w) = [SetSelectedChart None]
  /\ fetches (valueEffect VNull (selectedChart w)) = []
  /\ selectionState (step w (Render VNull)) = Empty
  /\ displayed (step w (Render VNull)) = None
  /\ pending (step w (Render VNull)) = pending w
  /\ onChangeCalls (step w (Render VNull)) = onChangeCalls w
  /\ (value w <> VNull -> selectedChart (step w (Render VNull)) = None)
  /\ (forall c : bool,
        mount VNull c = mkComponent VNull c None false [] []
        /\ selectionState (mount VNull c) = Empty).
Proof.
  split; [reflexivity |]. split; [reflexivity |].
  unfold step. destruct (decide (VNull = value w)) as [E | E].
  - unfold selectionState, displayed, selectedValue. rewrite <- E. simpl.
    repeat split; try reflexivity. intros H. by destruct H.
  - simpl. repeat split; reflexivity.
Qed.

(** C10: the external value [0] is handled exactly like [null] and
    [undefined]: the effect only clears the stored option and starts no
    request, and whatever the state cells hold, nothing is displayed as
    selected while the value is [0]. *)
Theorem C10_zero_value_is_no_selection (w : Component) :
  valueEffect (VNum 0) (selectedChart w) = [SetSelectedChart None]
  /\ valueEffect (VNum 0) (selectedChart w) = valueEffect VNull (selectedChart w)
  /\ valueEffect (VNum 0) (selectedChart w)
     = valueEffect VUndefined (selectedChart w)
  /\ fetches (valueEffect (VNum 0) (selectedChart w)) = []
  /\ (forall (sc : option ChartOption.t) (loading : bool),
        selectedValue (VNum 0) sc loading = None
        /\ selectedValue (VNum 0) sc loading = selectedValue VNull sc loading)
  /\ selectionState (step w (Render (VNum 0))) = Empty
  /\ displayed (step w (Render (VNum 0))) = None
  /\ pending (step w (Render (VNum 0))) = pending w
  /\ (value w <> VNum 0 -> selectedChart (step w (Render (VNum 0))) = None)
  /\ (forall c : bool, mount (VNum 0) c = mkComponent (VNum 0) c None false [] []).
Proof.
  split; [reflexivity |]. split; [reflexivity |]. split; [reflexivity |].
  split; [reflexivity |]. split; [intros; split; reflexivity |].
  unfold step. destruct (decide (VNum 0 = value w)) as [E | E].
  - unfold selectionState, displayed, selectedValue. rewrite <- E. simpl.
    repeat split; try reflexivity. intros H. by destruct H.
  - simpl. repeat split; reflexivity.
Qed.

Lemma setValue_same (w : Component) : setValue w (value w) = w.
Proof. by destruct w. Qed.

Lemma step_render_already_loaded (w : Component) (v : Z) (o : ChartOption.t) :
  v <> 0 -> selectedChart w = Some o -> ChartOption.value o = v ->
  step w (Render (VNum v)) = setValue w (VNum v).
Proof.
  intros Hv Hsc Ho. unfold step.
  destruct (decide (VNum v = value w)) as [E | E].
  - rewrite E. symmetry. apply setValue_same.
  - unfold valueEffect. rewrite (truthy_nonzero v Hv).
    replace (alreadyLoaded (selectedChart w) v) with true; [reflexivity |].
    symmetry. apply alreadyLoaded_true. by exists o.
Qed.

(** C2, as stated, fails for the identifier [0]: after a response carrying
    the id [0] the state is Resolved with identifier [0], and the handler
    invoked with [0] takes the falsy branch, which clears the stored option:
    the state goes from Resolved to Empty. *)
Lemma C2_zero_identifier_counterexample :
  selectionState (run (mount (VNum 5) true) [Settle 0 (Fulfilled (Some chartZero))])
  = Resolved (ChartOption.mk 0 "X (t)" (Some "t"))
  /\ valueEffect (VNum 0) (Some (ChartOption.mk 0 "X (t)" (Some "t")))
     = [SetSelectedChart None]
  /\ selectedChart
       (run (mount (VNum 5) true)
            [Settle 0 (Fulfilled (Some chartZero)); Render (VNum 0)])
     = None
  /\ selectionState
       (run (mount (VNum 5) true)
            [Settle 0 (Fulfilled (Some chartZero)); Render (VNum 0)])
     = Empty.
Proof. repeat split. Qed.

(** C2 (amended): for every non-zero identifier [v], if the stored selected
    option has identifier [v], the handler invoked with [v] issues no
    command at all: no request is started, the stored option, the loading
    flag and the promises in flight are unchanged, and a state that was
    Resolved stays Resolved with the same option. *)
Theorem C2_resolved_same_value_noop
    (w : Component) (v : Z) (o : ChartOption.t) :
  v <> 0 -> selectedChart w = Some o -> ChartOption.value o = v ->
  valueEffect (VNum v) (selectedChart w) = []
  /\ fetches (valueEffect (VNum v) (selectedChart w)) = []
  /\ step w (Render (VNum v)) = setValue w (VNum v)
  /\ selectedChart (step w (Render (VNum v))) = Some o
  /\ isLoadingSelected (step w (Render (VNum v))) = isLoadingSelected w
  /\ pending (step w (Render (VNum v))) = pending w
  /\ (selectionState w = Resolved o ->
      selectionState (step w (Render (VNum v))) = Resolved o).
Proof.
  intros Hv Hsc Ho.
  assert (valueEffect (VNum v) (selectedChart w) = []) as Heff.
  { unfold valueEffect. rewrite (truthy_nonzero v Hv).
    replace (alreadyLoaded (selectedChart w) v) with true; [reflexivity |].
    symmetry. apply alreadyLoaded_true. by exists o. }
  rewrite Heff, (step_render_already_loaded w v o Hv Hsc Ho).
  repeat split; try done.
  unfold selectionState.
  change (value (setValue w (VNum v))) with (VNum v).
  change (isLoadingSelected (setValue w (VNum v))) with (isLoadingSelected w).
  change (selectedChart (setValue w (VNum v))) with (selectedChart w).
  rewrite (truthy_nonzero v Hv).
  destruct (truthy (value w)); [| discriminate].
  destruct (isLoadingSelected w); [discriminate |].
  by rewrite Hsc.
Qed.

Lemma C2_resolved_same_value_noop_witness :
  (1 <> 0
   /\ selectedChart staleComponent
      = Some (ChartOption.mk 1 "Test Chart 1 (table)" (Some "table")))
  /\ valueEffect (VNum 1) (selectedChart staleComponent) = []
  /\ pending (step staleComponent (Render (VNum 1))) = []
  /\ selectionState (step staleComponent (Render (VNum 1)))
     = Resolved (ChartOption.mk 1 "Test Chart 1 (table)" (Some "table")).
Proof.
  split; [split; [discriminate | reflexivity] |].
  destruct (C2_resolved_same_value_noop staleComponent 1
              (ChartOption.mk 1 "Test Chart 1 (table)" (Some "table")))
    as (H1 & _ & _ & _ & _ & H2 & H3);
    [discriminate | reflexivity | reflexivity |].
  split; [exact H1 |]. split; [exact H2 |]. apply H3. reflexivity.
Defined.

(** ** Settlement of a by-identifier request *)

Lemma exec_settle (w : Component) (v : Z) (o : Outcome) :
  exec w (settle v o)
  = mkComponent (value w) (clearable w) (Some (settledOption v o)) false
                (pending w) (onChangeCalls w).
Proof. destruct o as [[chart |] | e]; reflexivity. Qed.

Lemma step_settle (w : Component) (i : nat) (p : Pending) (o : Outcome) :
  pending w !! i = Some p ->
  step w (Settle i o)
  = mkComponent (value w) (clearable w)
                (Some (settledOption (issuedFor p) o)) false
                (delete i (pending w)) (onChangeCalls w).
Proof. intros Hp. unfold step. rewrite Hp, exec_settle. reflexivity. Qed.

Lemma settle_selectionState (w : Component) (i : nat) (p : Pending) (o : Outcome) :
  pending w !! i = Some p ->
  value (step w (Settle i o)) = value w
  /\ selectionState (step w (Settle i o))
     = match truthy (value w) with
       | Some _ => Resolved (settledOption (issuedFor p) o)
       | None => Empty
       end.
Proof.
  intros Hp. rewrite (step_settle w i p o Hp).
  unfold selectionState. simpl. split; reflexivity.
Qed.

Lemma append_empty_r (s : string) : s +:+ "" = s.
Proof.
  induction s as [| a s IH]; [reflexivity |].
  change (String a (s +:+ "") = String a s). by f_equal.
Qed.

Lemma fallback_label_includes (v : Z) :
  includes (ChartOption.label (fallbackOption v)) (toString v).
Proof.
  exists "Chart ", "". unfold fallbackOption. cbn [ChartOption.label].
  by rewrite append_empty_r.
Qed.

(** C1, as stated, fails on the code: request A is issued for 1 at mount,
    request B for 2 after the value changed; B is fulfilled first and the
    state is Resolved(2); when A is fulfilled afterwards its result is
    stored all the same, and option 1 is displayed while the external value
    is still 2. *)
Lemma C1_late_response_counterexample :
  pending (run (mount (VNum 1) true) [Render (VNum 2)])
  = [mkPending 1 "/api/v1/chart/1"; mkPending 2 "/api/v1/chart/2"]
  /\ selectionState
       (run (mount (VNum 1) true)
            [Render (VNum 2); Settle 1 (Fulfilled (Some chart2))])
     = Resolved (ChartOption.mk 2 "Test Chart 2 (bar)" (Some "bar"))
  /\ selectionState
       (run (mount (VNum 1) true)
            [Render (VNum 2); Settle 1 (Fulfilled (Some chart2));
             Settle 0 (Fulfilled (Some chart1))])
     = Resolved (ChartOption.mk 1 "Test Chart 1 (table)" (Some "table"))
  /\ value
       (run (mount (VNum 1) true)
            [Render (VNum 2); Settle 1 (Fulfilled (Some chart2));
             Settle 0 (Fulfilled (Some chart1))])
     = VNum 2.
Proof. repeat split. Qed.

(** C1 (amended): a by-identifier completion is applied whatever the
    external value is by then: it stores the option built from the response
    (on failure the fallback for the identifier the request was issued for)
    and clears the loading flag; it changes neither the external value nor
    the other requests in flight, and it does not call [onChange]. So with
    a truthy external value the state after any completion is Resolved with
    the option of that completion, also when the completion is a late
    one. *)
Theorem C1_completion_always_applied
    (w : Component) (i : nat) (p : Pending) (o : Outcome) :
  pending w !! i = Some p ->
  selectedChart (step w (Settle i o)) = Some (settledOption (issuedFor p) o)
  /\ isLoadingSelected (step w (Settle i o)) = false
  /\ value (step w (Settle i o)) = value w
  /\ pending (step w (Settle i o)) = delete i (pending w)
  /\ onChangeCalls (step w (Settle i o)) = onChangeCalls w
  /\ selectionState (step w (Settle i o))
     = match truthy (value w) with
       | Some _ => Resolved (settledOption (issuedFor p) o)
       | None => Empty
       end.
Proof.
  intros Hp. rewrite (step_settle w i p o Hp).
  unfold selectionState. simpl.
  repeat split.
Qed.

Lemma C1_completion_always_applied_witness :
  pending racedComponent !! 0%nat = Some (mkPending 1 "/api/v1/chart/1")
  /\ selectedChart (step racedComponent (Settle 0 (Fulfilled (Some chart1))))
     = Some (ChartOption.mk 1 "Test Chart 1 (table)" (Some "table"))
  /\ isLoadingSelected (step racedComponent (Settle 0 (Fulfilled (Some chart1))))
     = false
  /\ value (step racedComponent (Settle 0 (Fulfilled (Some chart1)))) = VNum 2.
Proof.
  split; [reflexivity |].
  destruct (C1_completion_always_applied racedComponent 0
              (mkPending 1 "/api/v1/chart/1") (Fulfilled (Some chart1)))
    as (H1 & H2 & H3 & _); [reflexivity |].
  split; [exact H1 |]. split; [exact H2 | exact H3].
Defined.

(** C3: when the request for the pending identifier [v] fails (it is
    rejected, or its body has no result), the state becomes Resolved with
    the fallback option: its value is exactly [v], its label is "Chart "
    followed by the decimal form of [v] and so contains it, the external
    value is still [v], and the loading flag is off. Whatever the outcome of
    that request, the state after it is Resolved, not Resolving. *)
Theorem C3_failure_falls_back
    (w : Component) (v : Z) (i : nat) (p : Pending) (o : Outcome) :
  selectionState w = Resolving v ->
  pending w !! i = Some p ->
  issuedFor p = v ->
  failed o = true ->
  selectionState (step w (Settle i o)) = Resolved (fallbackOption v)
  /\ displayed (step w (Settle i o)) = Some (fallbackOption v)
  /\ ChartOption.value (fallbackOption v) = v
  /\ ChartOption.label (fallbackOption v) = "Chart " +:+ toString v
  /\ includes (ChartOption.label (fallbackOption v)) (toString v)
  /\ value (step w (Settle i o)) = VNum v
  /\ isLoadingSelected (step w (Settle i o)) = false
  /\ (forall o' : Outcome,
        selectionState (step w (Settle i o'))
        = Resolved (settledOption v o')).
Proof.
  intros Hs Hp Hv Hf.
  assert (value w = VNum v /\ v <> 0) as [Hval Hnz].
  { unfold selectionState in Hs.
    destruct (truthy (value w)) as [u |] eqn:Hu; [| discriminate].
    apply truthy_Some in Hu as [Hu Hnz].
    destruct (isLoadingSelected w).
    - injection Hs as <-. done.
    - destruct (selectedChart w); [discriminate |]. injection Hs as <-. done. }
  assert (forall o' : Outcome,
            selectionState (step w (Settle i o')) = Resolved (settledOption v o'))
    as Hall.
  { intros o'.
    destruct (settle_selectionState w i p o' Hp) as [_ Hst].
    rewrite Hst, Hval, (truthy_nonzero v Hnz), Hv. reflexivity. }
  assert (settledOption v o = fallbackOption v) as Hfb.
  { destruct o as [[chart |] | e]; [discriminate | reflexivity | reflexivity]. }
  split; [by rewrite Hall, Hfb |].
  split.
  { pose proof (selectionState_displayed (step w (Settle i o))) as Hd.
    rewrite Hall, Hfb in Hd. apply Hd. }
  split; [reflexivity |]. split; [reflexivity |].
  split; [apply fallback_label_includes |].
  rewrite (step_settle w i p o Hp). simpl.
  split; [exact Hval |]. split; [reflexivity | exact Hall].
Qed.

Lemma C3_failure_falls_back_witness :
  (selectionState (mount (VNum 7) true) = Resolving 7
   /\ pending (mount (VNum 7) true) !! 0%nat
      = Some (mkPending 7 "/api/v1/chart/7")
   /\ failed (Rejected "Internal Server Error") = true)
  /\ selectionState
       (step (mount (VNum 7) true) (Settle 0 (Rejected "Internal Server Error")))
     = Resolved (ChartOption.mk 7 "Chart 7" None)
  /\ isLoadingSelected
       (step (mount (VNum 7) true) (Settle 0 (Rejected "Internal Server Error")))
     = false.
Proof.
  split; [repeat split |].
  destruct (C3_failure_falls_back (mount (VNum 7) true) 7 0
              (mkPending 7 "/api/v1/chart/7") (Rejected "Internal Server Error"))
    as (H1 & _ & _ & _ & _ & _ & H2 & _); try reflexivity.
  split; [exact H1 | exact H2].
Defined.

(** ** The change handler and the clear action *)

Lemma handleChange_empty (p : ClearPayload) :
  handleChange (clearValue p) = [OnChange JNull].
Proof. by destruct p. Qed.

Lemma step_clear (w : Component) (p : ClearPayload) :
  clearable w = true ->
  step w (Clear p)
  = mkComponent (value w) (clearable w) (selectedChart w)
                (isLoadingSelected w) (pending w) (onChangeCalls w ++ [JNull]).
Proof.
  intros Hc. unfold step. rewrite handleChange_empty. simpl.
  rewrite Hc. reflexivity.
Qed.

(** C8, as stated, fails on the code: the clear action calls [onChange(null)]
    once, but the handler touches no state cell, so the selection state is
    still Resolved with chart 1 afterwards, not Empty. *)
Lemma C8_clear_keeps_state_counterexample :
  clearable loadedComponent = true
  /\ selectionState loadedComponent
     = Resolved (ChartOption.mk 1 "Test Chart 1 (table)" (Some "table"))
  /\ onChangeCalls (step loadedComponent (Clear ClearUndefined)) = [JNull]
  /\ selectionState (step loadedComponent (Clear ClearUndefined))
     = Resolved (ChartOption.mk 1 "Test Chart 1 (table)" (Some "table"))
  /\ selectionState (step loadedComponent (Clear ClearUndefined)) <> Empty.
Proof. repeat split. discriminate. Qed.

(** C8 (amended): when the selector is clearable and a value is selected,
    the clear action calls the change callback with [null] exactly once,
    whether the host reports the cleared value as [null] or as
    [undefined]; the handler itself leaves the external value, the stored
    option, the loading flag and the requests in flight as they are, so the
    same option is still displayed. The selection state becomes Empty, with
    no request issued, when the owner then renders the component with the
    value [null]. *)
Theorem C8_clear_calls_onChange_null
    (w : Component) (p : ClearPayload) (o : ChartOption.t) :
  clearable w = true ->
  displayed w = Some o ->
  handleChange (clearValue p) = [OnChange JNull]
  /\ onChangeCalls (step w (Clear p)) = onChangeCalls w ++ [JNull]
  /\ value (step w (Clear p)) = value w
  /\ selectedChart (step w (Clear p)) = selectedChart w
  /\ isLoadingSelected (step w (Clear p)) = isLoadingSelected w
  /\ pending (step w (Clear p)) = pending w
  /\ displayed (step w (Clear p)) = Some o
  /\ selectionState (run w [Clear p; Render VNull]) = Empty
  /\ pending (run w [Clear p; Render VNull]) = pending w
  /\ onChangeCalls (run w [Clear p; Render VNull]) = onChangeCalls w ++ [JNull].
Proof.
  intros Hc Hd.
  split; [apply handleChange_empty |].
  change (run w [Clear p; Render VNull])
    with (step (step w (Clear p)) (Render VNull)).
  destruct (render_null_state (step w (Clear p))) as (Hs & Hp & Hl).
  rewrite Hs, Hp, Hl, (step_clear w p Hc).
  unfold displayed in *. simpl.
  repeat split; done.
Qed.

Lemma C8_clear_calls_onChange_null_witness :
  (clearable loadedComponent = true
   /\ displayed loadedComponent
      = Some (ChartOption.mk 1 "Test Chart 1 (table)" (Some "table")))
  /\ onChangeCalls (step loadedComponent (Clear ClearUndefined)) = [JNull]
  /\ selectionState (run loadedComponent [Clear ClearUndefined; Render VNull])
     = Empty.
Proof.
  split; [split; reflexivity |].
  destruct (C8_clear_calls_onChange_null loadedComponent ClearUndefined
              (ChartOption.mk 1 "Test Chart 1 (table)" (Some "table")))
    as (_ & H1 & _ & _ & _ & _ & _ & H2 & _); try reflexivity.
  split; [exact H1 | exact H2].
Defined.

(** ** Requests in flight *)

Lemma exec_valueEffect_pending (w : Component) (v : ValueProp)
    (sc : option ChartOption.t) :
  pending (exec w (valueEffect v sc)) = pending w ++ fetches (valueEffect v sc).
Proof.
  unfold valueEffect. destruct (truthy v) as [n |]; simpl.
  - destruct (alreadyLoaded sc n); simpl; by rewrite ?app_nil_r.
  - by rewrite app_nil_r.
Qed.

Lemma valueEffect_wellIssued (v : ValueProp) (sc : option ChartOption.t) :
  Forall wellIssued (fetches (valueEffect v sc)).
Proof.
  rewrite valueEffect_fetches.
  destruct (truthy v) as [n |] eqn:Hn; [| constructor].
  apply truthy_Some in Hn as [_ Hn].
  destruct (alreadyLoaded sc n); repeat constructor; done.
Qed.

Lemma step_wellIssued (w : Component) (e : Event) :
  Forall wellIssued (pending w) -> Forall wellIssued (pending (step w e)).
Proof.
  intros Hw. destruct e as [v | i o | x | p]; unfold step.
  - case_decide; [done |].
    rewrite exec_valueEffect_pending. apply Forall_app. split; [done |].
    apply valueEffect_wellIssued.
  - destruct (pending w !! i) as [q |] eqn:Hq; [| done].
    rewrite exec_settle. simpl. by apply Forall_delete.
  - destruct x as [| | n | s | fields]; simpl; try done.
    by destruct (getField "value" fields).
  - destruct (clearable w); [| done]. by destruct p.
Qed.

Lemma run_wellIssued (es : list Event) (w : Component) :
  Forall wellIssued (pending w) -> Forall wellIssued (pending (run w es)).
Proof.
  revert w. induction es as [| e es IH]; intros w Hw; [done |].
  apply IH. by apply step_wellIssued.
Qed.

Lemma mount_wellIssued (v : ValueProp) (c : bool) (es : list Event) :
  Forall wellIssued (pending (run (mount v c) es)).
Proof.
  apply run_wellIssued. unfold mount.
  rewrite exec_valueEffect_pending. apply valueEffect_wellIssued.
Qed.

(** ** [ColumnSelect]: reset on dataset change *)

(** The test 'Should call "setFields" when "datasetId" changes': no call at
    mount with dataset 123, one call once the dataset is 456. *)
Example setFields_called_on_change :
  let form0 := ColumnSelect.mkForm ∅ 0 in
  let form1 := ColumnSelect.rerender "filterId" "column" None (Some 123) form0 in
  let form2 := ColumnSelect.rerender "filterId" "column" (Some 123) (Some 456) form1 in
  ColumnSelect.setFieldsCalls form1 = 0%nat
  /\ ColumnSelect.setFieldsCalls form2 = 1%nat.
Proof. split; reflexivity. Qed.

Lemma onDatasetChange_first_render (filterId formField : string)
    (datasetId : option Z) (form : ColumnSelect.Form) :
  ColumnSelect.rerender filterId formField None datasetId form = form.
Proof.
  unfold ColumnSelect.rerender, ColumnSelect.useChangeEffect.
  by case_decide.
Qed.

(** C9: in [ColumnSelect], when [datasetId] changes from a previous value
    that is a number to a different value (another number or [undefined]),
    the field [filters.<filterId>.<formField>] of the form is set to the
    value [null] and marked untouched, by one call of [setFields]; no other
    field of the form changes. *)
Theorem C9_dataset_change_resets_column
    (filterId formField : string) (previous : Z) (datasetId : option Z)
    (form : ColumnSelect.Form) :
  datasetId <> Some previous ->
  ColumnSelect.onDatasetChange filterId formField datasetId (Some previous) form
  = ColumnSelect.resetColumnField filterId formField form
  /\ ColumnSelect.rerender filterId formField (Some previous) datasetId form
     = ColumnSelect.resetColumnField filterId formField form
  /\ ColumnSelect.fields
       (ColumnSelect.rerender filterId formField (Some previous) datasetId form)
     !! ["filters"; filterId; formField]
     = Some (ColumnSelect.mkFieldState false None)
  /\ ColumnSelect.setFieldsCalls
       (ColumnSelect.rerender filterId formField (Some previous) datasetId form)
     = S (ColumnSelect.setFieldsCalls form)
  /\ (forall path : list string,
        path <> ["filters"; filterId; formField] ->
        ColumnSelect.fields
          (ColumnSelect.rerender filterId formField (Some previous) datasetId form)
        !! path
        = ColumnSelect.fields form !! path).
Proof.
  intros Hne.
  assert (ColumnSelect.onDatasetChange filterId formField datasetId
            (Some previous) form
          = ColumnSelect.resetColumnField filterId formField form) as Hcb.
  { unfold ColumnSelect.onDatasetChange. case_decide; congruence. }
  assert (ColumnSelect.rerender filterId formField (Some previous) datasetId form
          = ColumnSelect.resetColumnField filterId formField form) as ->.
  { unfold ColumnSelect.rerender, ColumnSelect.useChangeEffect.
    case_decide; [congruence | exact Hcb]. }
  split; [exact Hcb |].
  unfold ColumnSelect.resetColumnField, ColumnSelect.setFields,
    ColumnSelect.setField. simpl.
  split; [reflexivity |]. split; [apply lookup_insert_eq |].
  split; [reflexivity |].
  intros path Hp. by apply lookup_insert_ne.
Qed.

Lemma C9_dataset_change_resets_column_witness :
  Some 456 <> Some 123
  /\ ColumnSelect.fields
       (ColumnSelect.rerender "filterId" "column" (Some 123) (Some 456)
          (ColumnSelect.mkForm
             {[ ["filters"; "filterId"; "column"]
                := ColumnSelect.mkFieldState true (Some "column_name_01") ]} 0))
     !! ["filters"; "filterId"; "column"]
     = Some (ColumnSelect.mkFieldState false None).
Proof.
  split; [discriminate |].
  destruct (C9_dataset_change_resets_column "filterId" "column" 123 (Some 456)
              (ColumnSelect.mkForm
                 {[ ["filters"; "filterId"; "column"]
                    := ColumnSelect.mkFieldState true (Some "column_name_01") ]} 0))
    as (_ & _ & H & _); [discriminate | exact H].
Defined.

(** * Further properties of [ChartSelect] *)

(** X1: whatever the initial value and the events, every request in flight
    was issued for a non-zero identifier, at the endpoint
    [/api/v1/chart/<identifier>]: the component never asks for chart 0 or
    for an absent value. *)
Theorem in_flight_requests_are_for_truthy_values
    (v : ValueProp) (c : bool) (es : list Event) :
  Forall (fun p : Pending =>
            issuedFor p <> 0
            /\ endpoint p = "/api/v1/chart/" +:+ toString (issuedFor p))
         (pending (run (mount v c) es)).
Proof. exact (mount_wellIssued v c es). Qed.

Lemma step_clearable (w : Component) (e : Event) :
  clearable (step w e) = clearable w.
Proof.
  destruct e as [v | i o | x | p]; unfold step.
  - case_decide; [done |]. unfold valueEffect.
    destruct (truthy v) as [n |]; [| done].
    by destruct (alreadyLoaded (selectedChart w) n).
  - destruct (pending w !! i); [| done]. by rewrite exec_settle.
  - destruct x as [| | n | s | fields]; try done.
    simpl. by destruct (getField "value" fields).
  - destruct (clearable w) eqn:Hc; [| done]. by destruct p.
Qed.

Lemma step_onChangeCalls (w : Component) (e : Event) :
  exists calls : list JsVal,
    onChangeCalls (step w e) = onChangeCalls w ++ calls
    /\ length calls = reports (clearable w) e.
Proof.
  destruct e as [v | i o | x | p]; unfold step.
  - exists []. rewrite app_nil_r. split; [| done].
    case_decide; [done |]. unfold valueEffect.
    destruct (truthy v) as [n |]; [| done].
    by destruct (alreadyLoaded (selectedChart w) n).
  - exists []. rewrite app_nil_r. split; [| done].
    destruct (pending w !! i); [| done]. by rewrite exec_settle.
  - destruct x as [| | n | s | fields]; simpl;
      try (eexists [_]; split; reflexivity).
    destruct (getField "value" fields); eexists [_]; split; reflexivity.
  - simpl. destruct (clearable w).
    + exists [JNull]. split; [by destruct p | done].
    + exists []. by rewrite app_nil_r.
Qed.

(** X2: the parent's [onChange] is called by user events only, once per
    event: over any sequence of events the calls already made are kept in
    place and the number of new calls is the number of [Change] events plus,
    when the selector is clearable, the number of [Clear] events. A new
    external value or a settled request never calls it. *)
Theorem onChange_called_once_per_user_event (w : Component) (es : list Event) :
  exists calls : list JsVal,
    onChangeCalls (run w es) = onChangeCalls w ++ calls
    /\ length calls = sum_list (map (reports (clearable w)) es).
Proof.
  revert w. induction es as [| e es IH]; intros w.
  - exists []. by rewrite app_nil_r.
  - destruct (step_onChangeCalls w e) as (c1 & H1 & L1).
    destruct (IH (step w e)) as (c2 & H2 & L2).
    exists (c1 ++ c2). split.
    + change (run w (e :: es)) with (run (step w e) es).
      by rewrite H2, H1, app_assoc.
    + rewrite length_app, L1, L2, step_clearable. reflexivity.
Qed.

(** X3: when the external value changes to a non-zero identifier that the
    stored option is not for, the component starts exactly one request, for
    that identifier, turns the loading flag on and displays the placeholder
    "Loading..." with the new identifier; the stored option is kept but not
    shown. *)
Theorem new_value_starts_one_request (w : Component) (v : Z) :
  v <> 0 ->
  value w <> VNum v ->
  alreadyLoaded (selectedChart w) v = false ->
  pending (step w (Render (VNum v)))
  = pending w ++ [mkPending v ("/api/v1/chart/" +:+ toString v)]
  /\ isLoadingSelected (step w (Render (VNum v))) = true
  /\ selectedChart (step w (Render (VNum v))) = selectedChart w
  /\ displayed (step w (Render (VNum v)))
     = Some (ChartOption.mk v "Loading..." None)
  /\ selectionState (step w (Render (VNum v))) = Resolving v
  /\ onChangeCalls (step w (Render (VNum v))) = onChangeCalls w.
Proof.
  intros Hv Hne Hl. unfold step.
  destruct (decide (VNum v = value w)) as [E | _]; [by destruct Hne |].
  unfold valueEffect. rewrite (truthy_nonzero v Hv), Hl.
  unfold displayed, selectedValue, selectionState.
  cbn [exec foldl exec1 setValue value isLoadingSelected selectedChart
       pending onChangeCalls].
  rewrite (truthy_nonzero v Hv). repeat split.
Qed.

Lemma new_value_starts_one_request_witness :
  (2 <> 0 /\ value loadedComponent <> VNum 2
   /\ alreadyLoaded (selectedChart loadedComponent) 2 = false)
  /\ pending (step loadedComponent (Render (VNum 2)))
     = [mkPending 2 "/api/v1/chart/2"]
  /\ displayed (step loadedComponent (Render (VNum 2)))
     = Some (ChartOption.mk 2 "Loading..." None).
Proof.
  split; [repeat split; discriminate |].
  destruct (new_value_starts_one_request loadedComponent 2)
    as (H1 & _ & _ & H2 & _); [discriminate | discriminate | reflexivity |].
  split; [exact H1 | exact H2].
Defined.

(** X4: a component mounted with a non-zero identifier has exactly one
    request in flight and shows the placeholder; once that request is
    fulfilled with a chart, the component shows the label
    "<slice_name> (<viz_type>)" with the id the response carries, the
    loading flag is off and nothing is left in flight. *)
Theorem mount_then_fulfilled (v : Z) (c : bool) (chart : Chart.t) :
  v <> 0 ->
  mount (VNum v) c
  = mkComponent (VNum v) c None true
                [mkPending v ("/api/v1/chart/" +:+ toString v)] []
  /\ displayed (mount (VNum v) c) = Some (ChartOption.mk v "Loading..." None)
  /\ run (mount (VNum v) c) [Settle 0 (Fulfilled (Some chart))]
     = mkComponent (VNum v) c (Some (chartToOption chart)) false [] []
  /\ displayed (run (mount (VNum v) c) [Settle 0 (Fulfilled (Some chart))])
     = Some (ChartOption.mk (Chart.id chart)
                            (Chart.slice_name chart +:+ " ("
                             +:+ Chart.viz_type chart +:+ ")")
                            (Some (Chart.viz_type chart))).
Proof.
  intros Hv.
  assert (mount (VNum v) c
          = mkComponent (VNum v) c None true
                        [mkPending v ("/api/v1/chart/" +:+ toString v)] [])
    as Hm.
  { unfold mount, valueEffect.
    cbn [selectedChart alreadyLoaded]. by rewrite (truthy_nonzero v Hv). }
  rewrite Hm.
  change (run ?w [?e]) with (step w e).
  rewrite (step_settle _ 0 (mkPending v ("/api/v1/chart/" +:+ toString v)))
    by reflexivity.
  unfold displayed, selectedValue.
  cbn [value isLoadingSelected selectedChart].
  rewrite (truthy_nonzero v Hv). repeat split.
Qed.

Lemma mount_then_fulfilled_witness :
  2 <> 0
  /\ displayed (run (mount (VNum 2) true)
                    [Settle 0 (Fulfilled (Some (Chart.mk 2 "Selected Chart" "bar")))])
     = Some (ChartOption.mk 2 "Selected Chart (bar)" (Some "bar")).
Proof.
  split; [discriminate |].
  destruct (mount_then_fulfilled 2 true (Chart.mk 2 "Selected Chart" "bar"))
    as (_ & _ & _ & H); [discriminate | exact H].
Defined.

(** The stored option, if any, has a non-zero identifier. *)
Lemma step_stored_nonzero (w : Component) (e : Event) :
  honestEvent w e = true ->
  Forall wellIssued (pending w) ->
  (forall o, selectedChart w = Some o -> ChartOption.value o <> 0) ->
  forall o, selectedChart (step w e) = Some o -> ChartOption.value o <> 0.
Proof.
  intros Hh Hp Hs o. destruct e as [v | i out | x | p]; unfold step.
  - case_decide; [apply Hs |]. unfold valueEffect.
    destruct (truthy v) as [n |]; [| discriminate].
    destruct (alreadyLoaded (selectedChart w) n); apply Hs.
  - destruct (pending w !! i) as [q |] eqn:Hq; [| apply Hs].
    rewrite exec_settle. simpl. intros [= <-].
    assert (issuedFor q <> 0) as Hq0.
    { apply list_elem_of_lookup_2 in Hq.
      rewrite Forall_forall in Hp. by apply Hp in Hq as [? _]. }
    unfold honestEvent in Hh.
    destruct out as [[chart |] | err]; simpl; try done.
    rewrite Hq in Hh. apply Z.eqb_eq in Hh. by rewrite Hh.
  - destruct x as [| | n | s | fields]; simpl; try apply Hs.
    destruct (getField "value" fields); apply Hs.
  - destruct (clearable w); [| apply Hs]. destruct p; apply Hs.
Qed.

Lemma run_stored_nonzero (es : list Event) (w : Component) :
  honestRun w es = true ->
  Forall wellIssued (pending w) ->
  (forall o, selectedChart w = Some o -> ChartOption.value o <> 0) ->
  forall o, selectedChart (run w es) = Some o -> ChartOption.value o <> 0.
Proof.
  revert w. induction es as [| e es IH]; intros w Hh Hp Hs; [exact Hs |].
  simpl in Hh. apply andb_true_iff in Hh as [He Hes].
  apply (IH (step w e) Hes).
  - by apply step_wellIssued.
  - by apply step_stored_nonzero.
Qed.

(** X5: as long as every fulfilled response carries the id its request was
    issued for, the stored option never has the identifier 0; the
    already-loaded guard then makes the handler a no-op for every
    identifier the stored option has. *)
Theorem honest_responses_store_nonzero_ids
    (v : ValueProp) (c : bool) (es : list Event) (o : ChartOption.t) :
  honestRun (mount v c) es = true ->
  selectedChart (run (mount v c) es) = Some o ->
  ChartOption.value o <> 0
  /\ valueEffect (VNum (ChartOption.value o))
                 (selectedChart (run (mount v c) es)) = [].
Proof.
  intros Hh Ho.
  assert (ChartOption.value o <> 0) as Hnz.
  { apply (run_stored_nonzero es (mount v c) Hh); [| | exact Ho].
    - apply (mount_wellIssued v c []).
    - unfold mount, valueEffect. intros o'.
      destruct (truthy v) as [n |]; [| discriminate].
      cbn [selectedChart alreadyLoaded]. discriminate. }
  split; [exact Hnz |].
  unfold valueEffect. rewrite (truthy_nonzero _ Hnz), Ho. simpl.
  by rewrite Z.eqb_refl.
Qed.

Lemma honest_responses_store_nonzero_ids_witness :
  (honestRun (mount (VNum 1) true) [Settle 0 (Fulfilled (Some chart1))] = true
   /\ selectedChart (run (mount (VNum 1) true) [Settle 0 (Fulfilled (Some chart1))])
      = Some (ChartOption.mk 1 "Test Chart 1 (table)" (Some "table")))
  /\ ChartOption.value (ChartOption.mk 1 "Test Chart 1 (table)" (Some "table"))
     <> 0.
Proof.
  split; [split; reflexivity |].
  exact (proj1 (honest_responses_store_nonzero_ids (VNum 1) true
                  [Settle 0 (Fulfilled (Some chart1))]
                  (ChartOption.mk 1 "Test Chart 1 (table)" (Some "table"))
                  eq_refl eq_refl)).
Defined.




Lemma step_change_displayed (w : Component) (x : JsVal) :
  displayed (step w (Change x)) = displayed w
  /\ pending (step w (Change x)) = pending w.
Proof.
  unfold step. destruct x as [| | n | s | fields]; try done.
  simpl. by destruct (getField "value" fields).
Qed.

(** X7: picking any option of any list response reports to the parent the
    id of a chart of that response, by one [onChange] call; what the
    component displays and the requests in flight do not change. *)
Theorem picking_listed_option_reports_its_id
    (json : ListResponse.t) (o : ChartOption.t) (w : Component) :
  o ∈ Page.data (loadChartOptions_result json) ->
  (exists chart : Chart.t,
      chart ∈ ListResponse.result json
      /\ ChartOption.value o = Chart.id chart
      /\ onChangeCalls (step w (Change (optionObject o)))
         = onChangeCalls w ++ [JNum (Chart.id chart)])
  /\ displayed (step w (Change (optionObject o))) = displayed w
  /\ pending (step w (Change (optionObject o))) = pending w.
Proof.
  intros Ho. split; [| apply step_change_displayed].
  unfold loadChartOptions_result in Ho. cbn [Page.data] in Ho.
  apply list_elem_of_fmap in Ho as (chart & -> & Hin).
  exists chart. repeat split. exact Hin.
Qed.

Lemma picking_listed_option_reports_its_id_witness :
  (ChartOption.mk 2 "Test Chart 2 (bar)" (Some "bar")
   ∈ Page.data (loadChartOptions_result mockChartData))
  /\ onChangeCalls
       (step loadedComponent
             (Change (optionObject (ChartOption.mk 2 "Test Chart 2 (bar)" (Some "bar")))))
     = [JNum 2].
Proof.
  assert (ChartOption.mk 2 "Test Chart 2 (bar)" (Some "bar")
          ∈ Page.data (loadChartOptions_result mockChartData)) as Hin.
  { apply list_elem_of_In. right. left. reflexivity. }
  split; [exact Hin |].
  destruct (picking_listed_option_reports_its_id mockChartData
              (ChartOption.mk 2 "Test Chart 2 (bar)" (Some "bar"))
              loadedComponent Hin)
    as [(chart & _ & Hid & Hcalls) _].
  simpl in Hid. rewrite <- Hid in Hcalls. exact Hcalls.
Defined.






(** * Further properties of [ColumnSelect] *)

(** X9: the options offered are the names of the columns that pass
    [filterValues], in the order of the dataset, each with its name as both
    label and value; a name is offered exactly when some column of that name
    passes the filter; without columns nothing is offered. *)
Theorem options_are_the_passing_columns
    (columns : list Column.t) (filterValues : Column.t -> bool) :
  map ColumnSelect.SelectOption.value (ColumnSelect.options columns filterValues)
  = map Column.column_name (List.filter filterValues columns)
  /\ Forall (fun o => ColumnSelect.SelectOption.label o
                      = ColumnSelect.SelectOption.value o)
            (ColumnSelect.options columns filterValues)
  /\ (forall name : string,
        ColumnSelect.SelectOption.mk name name
          ∈ ColumnSelect.options columns filterValues
        <-> exists column : Column.t,
              column ∈ columns
              /\ Column.column_name column = name
              /\ filterValues column = true)
  /\ (length (ColumnSelect.options columns filterValues) <= length columns)%nat
  /\ ColumnSelect.options [] filterValues = [].
Proof.
  unfold ColumnSelect.options. split; [| split; [| split; [| split]]].
  - rewrite map_map. simpl. by rewrite map_id.
  - apply Forall_fmap, Forall_true. done.
  - intros name. rewrite list_elem_of_fmap. split.
    + intros (n & [= <-] & Hn).
      apply list_elem_of_fmap in Hn as (column & -> & Hc).
      apply list_elem_of_In, filter_In in Hc as [Hc Hf].
      exists column. by rewrite list_elem_of_In.
    + intros (column & Hc & <- & Hf).
      exists (Column.column_name column). split; [done |].
      apply list_elem_of_fmap. exists column. split; [done |].
      apply list_elem_of_In, filter_In. by rewrite <- list_elem_of_In.
  - rewrite !length_map. apply filter_length_le.
  - reflexivity.
Qed.

Lemma valueExists_true (columns : list Column.t) (value : ColumnSelect.ColumnValue) :
  ColumnSelect.valueExists columns value = true
  <-> exists column : Column.t,
        column ∈ columns
        /\ Column.column_name column ∈ ColumnSelect.lookupValue value.
Proof.
  unfold ColumnSelect.valueExists. rewrite existsb_exists. split.
  - intros (column & Hc & Hx). apply existsb_exists in Hx as (x & Hx & He).
    apply String.eqb_eq in He. subst x.
    exists column. by rewrite !list_elem_of_In.
  - intros (column & Hc & Hx). exists column.
    rewrite <- list_elem_of_In. split; [done |].
    apply existsb_exists. exists (Column.column_name column).
    rewrite <- list_elem_of_In. split; [done | apply String.eqb_refl].
Qed.

Lemma length_positive {A : Type} (l : list A) :
  (0 <? length l)%nat = true <-> l <> [].
Proof.
  destruct l; simpl; split; try done.
Qed.

Lemma validateEffect_keeps_known
    (filterId formField : string) (columns : list Column.t)
    (value : ColumnSelect.ColumnValue) (form : ColumnSelect.Form) :
  (exists column : Column.t,
      column ∈ columns
      /\ Column.column_name column ∈ ColumnSelect.lookupValue value) ->
  ColumnSelect.validateEffect filterId formField columns value form = form.
Proof.
  intros Hex. unfold ColumnSelect.validateEffect.
  apply valueExists_true in Hex. rewrite Hex. simpl.
  by destruct (_ && _).
Qed.

(** X10: the validation effect resets the column field exactly when the
    value is truthy, the dataset has columns and none of them is named by
    the value (the string itself, or any element of the array); in every
    other case it leaves the form alone. *)
Theorem validateEffect_resets_unknown_value
    (filterId formField : string) (columns : list Column.t)
    (value : ColumnSelect.ColumnValue) (form : ColumnSelect.Form) :
  (ColumnSelect.valueTruthy value = true
   /\ columns <> []
   /\ (forall column : Column.t,
         column ∈ columns ->
         Column.column_name column ∉ ColumnSelect.lookupValue value)
   -> ColumnSelect.validateEffect filterId formField columns value form
      = ColumnSelect.resetColumnField filterId formField form)
  /\ (ColumnSelect.valueTruthy value = false
      \/ columns = []
      \/ (exists column : Column.t,
            column ∈ columns
            /\ Column.column_name column ∈ ColumnSelect.lookupValue value)
      -> ColumnSelect.validateEffect filterId formField columns value form
         = form).
Proof.
  unfold ColumnSelect.validateEffect. split.
  - intros (Ht & Hc & Hnone). rewrite Ht.
    apply length_positive in Hc. rewrite Hc. simpl.
    destruct (ColumnSelect.valueExists columns value) eqn:He; [| done].
    apply valueExists_true in He as (column & Hin & Hx).
    by destruct (Hnone column Hin).
  - intros [Ht | [-> | Hex]].
    + by rewrite Ht.
    + by rewrite andb_false_r.
    + apply valueExists_true in Hex. rewrite Hex. simpl.
      by destruct (_ && _).
Qed.

(** X11: in a dataset that has columns, the empty array as value (an empty
    multiple selection) counts as an unknown value: the validation effect
    resets the field to [null], untouched. An undefined value, the empty
    string, or a dataset without columns never trigger it. *)
Theorem empty_array_value_resets_field
    (filterId formField : string) (column : Column.t) (columns : list Column.t)
    (value : ColumnSelect.ColumnValue) (form : ColumnSelect.Form) :
  ColumnSelect.validateEffect filterId formField (column :: columns)
    (ColumnSelect.CVArray []) form
  = ColumnSelect.resetColumnField filterId formField form
  /\ ColumnSelect.fields
       (ColumnSelect.validateEffect filterId formField (column :: columns)
          (ColumnSelect.CVArray []) form)
     !! ["filters"; filterId; formField]
     = Some (ColumnSelect.mkFieldState false None)
  /\ ColumnSelect.validateEffect filterId formField (column :: columns)
       ColumnSelect.CVUndefined form = form
  /\ ColumnSelect.validateEffect filterId formField (column :: columns)
       (ColumnSelect.CVString "") form = form
  /\ ColumnSelect.validateEffect filterId formField [] value form = form.
Proof.
  assert (ColumnSelect.validateEffect filterId formField (column :: columns)
            (ColumnSelect.CVArray []) form
          = ColumnSelect.resetColumnField filterId formField form) as Hr.
  { unfold ColumnSelect.validateEffect.
    destruct (ColumnSelect.valueExists (column :: columns)
                (ColumnSelect.CVArray [])) eqn:He; [| reflexivity].
    apply valueExists_true in He as (c' & _ & Hx). by apply elem_of_nil in Hx. }
  split; [exact Hr |]. split.
  - rewrite Hr. unfold ColumnSelect.resetColumnField, ColumnSelect.setFields,
      ColumnSelect.setField. simpl. apply lookup_insert_eq.
  - repeat split. unfold ColumnSelect.validateEffect. by rewrite andb_false_r.
Qed.

Lemma resetColumnField_calls (filterId formField : string) (form : ColumnSelect.Form) :
  ColumnSelect.setFieldsCalls (ColumnSelect.resetColumnField filterId formField form)
  = S (ColumnSelect.setFieldsCalls form).
Proof. reflexivity. Qed.

Lemma resetColumnField_changes (filterId formField : string) (form : ColumnSelect.Form) :
  ColumnSelect.resetColumnField filterId formField form <> form.
Proof.
  intros H. apply (f_equal ColumnSelect.setFieldsCalls) in H.
  rewrite resetColumnField_calls in H. lia.
Qed.

Lemma currentColumn_Some (columns : list Column.t) (s : string) (column : Column.t) :
  ColumnSelect.currentColumn columns (ColumnSelect.CVString s) = Some column ->
  column ∈ columns /\ Column.column_name column = s.
Proof.
  simpl. intros H. apply find_some in H as [Hin He].
  apply String.eqb_eq in He. by rewrite list_elem_of_In.
Qed.

Lemma currentColumn_None (columns : list Column.t) (s : string) :
  ColumnSelect.currentColumn columns (ColumnSelect.CVString s) = None ->
  ColumnSelect.valueExists columns (ColumnSelect.CVString s) = false.
Proof.
  simpl. intros H.
  destruct (ColumnSelect.valueExists columns (ColumnSelect.CVString s)) eqn:He;
    [| reflexivity].
  apply valueExists_true in He as (column & Hin & Hx).
  apply list_elem_of_singleton in Hx.
  apply list_elem_of_In in Hin.
  pose proof (find_none _ _ H column Hin) as Hf. simpl in Hf.
  rewrite Hx, String.eqb_refl in Hf. discriminate.
Qed.

Lemma validateEffect_known (filterId formField : string)
    (columns : list Column.t) (s : string) (column : Column.t)
    (form : ColumnSelect.Form) :
  column ∈ columns -> Column.column_name column = s ->
  ColumnSelect.validateEffect filterId formField columns
    (ColumnSelect.CVString s) form = form.
Proof.
  intros Hin Hn.
  apply (validateEffect_keeps_known filterId formField columns
           (ColumnSelect.CVString s) form).
  exists column. split; [done |]. simpl. rewrite Hn. by left.
Qed.

(** X12: on the first render a string value is kept (no effect touches the
    form) exactly when the first column of that name passes [filterValues],
    or, when no column has that name, the value is the empty string or the
    dataset has no columns. *)
Theorem mount_keeps_string_value_iff
    (filterId formField : string) (filterValues : Column.t -> bool)
    (columns : list Column.t) (datasetId : option Z) (s : string)
    (form : ColumnSelect.Form) :
  ColumnSelect.mountEffects filterId formField filterValues columns datasetId
    (ColumnSelect.CVString s) form = form
  <-> match ColumnSelect.currentColumn columns (ColumnSelect.CVString s) with
      | Some column => filterValues column = true
      | None => s = "" \/ columns = []
      end.
Proof.
  unfold ColumnSelect.mountEffects. rewrite onDatasetChange_first_render.
  unfold ColumnSelect.filterEffect.
  destruct (ColumnSelect.currentColumn columns (ColumnSelect.CVString s))
    as [column |] eqn:Hc.
  - apply currentColumn_Some in Hc as [Hin Hn].
    destruct (filterValues column); simpl.
    + rewrite (validateEffect_known _ _ _ _ _ _ Hin Hn). done.
    + rewrite (validateEffect_known _ _ _ _ _ _ Hin Hn). split; [| done].
      intros H. by apply resetColumnField_changes in H.
  - apply currentColumn_None in Hc.
    unfold ColumnSelect.validateEffect. rewrite Hc. simpl.
    destruct (String.eqb_spec s "") as [-> | Hs]; simpl.
    + split; [by left | done].
    + destruct columns as [| c0 columns]; simpl.
      * split; [by right | done].
      * split.
        -- intros H. by apply resetColumnField_changes in H.
        -- intros [? | ?]; done.
Qed.

(** X13: the effects of the first render call [setFields] at most once,
    whatever the value: the form is either left as it is or is exactly the
    form after one reset of the column field. *)
Theorem mount_resets_at_most_once
    (filterId formField : string) (filterValues : Column.t -> bool)
    (columns : list Column.t) (datasetId : option Z)
    (value : ColumnSelect.ColumnValue) (form : ColumnSelect.Form) :
  (ColumnSelect.mountEffects filterId formField filterValues columns datasetId
     value form = form
   \/ ColumnSelect.mountEffects filterId formField filterValues columns datasetId
        value form
      = ColumnSelect.resetColumnField filterId formField form)
  /\ (ColumnSelect.setFieldsCalls
        (ColumnSelect.mountEffects filterId formField filterValues columns
           datasetId value form)
      <= S (ColumnSelect.setFieldsCalls form))%nat.
Proof.
  assert (ColumnSelect.mountEffects filterId formField filterValues columns
            datasetId value form = form
          \/ ColumnSelect.mountEffects filterId formField filterValues columns
               datasetId value form
             = ColumnSelect.resetColumnField filterId formField form) as H.
  { unfold ColumnSelect.mountEffects. rewrite onDatasetChange_first_render.
    unfold ColumnSelect.filterEffect.
    destruct (ColumnSelect.currentColumn columns value) as [column |] eqn:Hc.
    - destruct value as [| s | l]; try discriminate.
      apply currentColumn_Some in Hc as [Hin Hn].
      rewrite (validateEffect_known _ _ _ _ _ _ Hin Hn).
      destruct (filterValues column); simpl; [by left | by right].
    - unfold ColumnSelect.validateEffect.
      destruct (_ && _); [| by left].
      destruct (negb _); [by right | by left]. }
  split; [exact H |].
  destruct H as [-> | ->]; [lia | rewrite resetColumnField_calls; lia].
Qed.

(** * Dataset utilities *)

Lemma pretty_N_char_no_underscore (x : N) :
  Ascii.eqb (pretty_N_char x) "_"%char = false.
Proof. unfold pretty_N_char. by repeat case_match. Qed.

Lemma pretty_N_go_no_underscore (x : N) (s : string) :
  noUnderscore s = true -> noUnderscore (pretty_N_go x s) = true.
Proof.
  revert s. induction (N.lt_wf_0 x) as [x _ IH]; intros s Hs.
  assert (x = 0 \/ 0 < x)%N as [-> | Hx] by lia.
  - by rewrite pretty_N_go_0.
  - rewrite pretty_N_go_step by done. apply IH.
    + by apply N.div_lt.
    + simpl. by rewrite pretty_N_char_no_underscore.
Qed.

Lemma pretty_N_no_underscore (x : N) : noUnderscore (pretty x) = true.
Proof.
  unfold pretty, pretty_N. case_decide; [reflexivity |].
  by apply pretty_N_go_no_underscore.
Qed.

Lemma toString_no_underscore (n : Z) : noUnderscore (toString n) = true.
Proof.
  unfold toString, pretty, pretty_Z. destruct n as [| p | p].
  - reflexivity.
  - apply (pretty_N_no_underscore (Npos p)).
  - change (noUnderscore (String "-" (pretty (Npos p))) = true).
    simpl. apply (pretty_N_no_underscore (Npos p)).
Qed.

Lemma firstSegment_before_separator (p rest : string) :
  noUnderscore p = true -> firstSegment (p +:+ "__" +:+ rest) = p.
Proof.
  induction p as [| c p IH]; intros Hp.
  - change ("" +:+ "__" +:+ rest) with (String "_" (String "_" rest)).
    cbn [firstSegment String.prefix].
    destruct (ascii_dec "_" "_") as [_ | E]; [| done].
    destruct rest; reflexivity.
  - simpl in Hp. apply andb_true_iff in Hp as [Hc Hp].
    apply negb_true_iff, Ascii.eqb_neq in Hc.
    change (String c p +:+ "__" +:+ rest) with (String c (p +:+ "__" +:+ rest)).
    cbn [firstSegment String.prefix].
    destruct (ascii_dec "_" c) as [E | _]; [by destruct Hc |].
    by rewrite IH.
Qed.

Lemma firstSegment_no_separator (s : string) :
  noUnderscore s = true -> firstSegment s = s.
Proof.
  induction s as [| c s IH]; intros Hs; [reflexivity |].
  simpl in Hs. apply andb_true_iff in Hs as [Hc Hs].
  apply negb_true_iff, Ascii.eqb_neq in Hc.
  cbn [firstSegment String.prefix].
  destruct (ascii_dec "_" c) as [E | _]; [by destruct Hc |].
  by rewrite IH.
Qed.

(** X14: [getDatasetId] of a uid of the form "<id>__<rest>", with <id> the
    decimal form of an integer, converts "<id>" alone: whatever follows the
    first separator is ignored, and a string that is only the decimal form
    is converted whole. A uid that starts with the separator converts the
    empty string, and a number is passed to [Number] as it is. *)
Theorem getDatasetId_reads_the_part_before_the_separator
    {Num : Type} (NumberOfString : string -> Num) (ofNumber : Z -> Num)
    (id : Z) (rest : string) :
  getDatasetId NumberOfString ofNumber (inl (toString id +:+ "__" +:+ rest))
  = NumberOfString (toString id)
  /\ (forall rest' : string,
        getDatasetId NumberOfString ofNumber (inl (toString id +:+ "__" +:+ rest))
        = getDatasetId NumberOfString ofNumber
            (inl (toString id +:+ "__" +:+ rest')))
  /\ getDatasetId NumberOfString ofNumber (inl (toString id))
     = NumberOfString (toString id)
  /\ getDatasetId NumberOfString ofNumber (inl ("__" +:+ rest))
     = NumberOfString ""
  /\ getDatasetId NumberOfString ofNumber (inr id) = ofNumber id.
Proof.
  unfold getDatasetId.
  rewrite (firstSegment_before_separator _ rest (toString_no_underscore id)).
  split; [reflexivity |]. split.
  - intros rest'.
    by rewrite (firstSegment_before_separator _ rest' (toString_no_underscore id)).
  - rewrite (firstSegment_no_separator _ (toString_no_underscore id)).
    split; [reflexivity |]. split; [| reflexivity].
    change ("__" +:+ rest) with ("" +:+ "__" +:+ rest).
    by rewrite firstSegment_before_separator.
Qed.

Section AssignAll.

Context {A : Type} (name : A -> string) (verbose : A -> option string).

Lemma foldl_assign_lookup (l : list A) (m : gmap string string) (key : string) :
  key <> "__proto__" ->
  foldl (fun m x => assign m (name x) (verboseOr (verbose x) (name x))) m l
  !! key
  = match (fun x => verboseOr (verbose x) (name x))
          <$> List.find (fun x => String.eqb (name x) key) (rev l) with
    | Some v => Some v
    | None => m !! key
    end.
Proof.
  intros Hk. induction l as [| x l IH] using rev_ind; [reflexivity |].
  rewrite foldl_app, rev_app_distr. simpl. unfold assign at 1.
  destruct (String.eqb_spec (name x) key) as [E | E].
  - destruct (String.eqb_spec (name x) "__proto__") as [E' | _]; [congruence |].
    simpl. rewrite E. apply lookup_insert_eq.
  - destruct (String.eqb_spec (name x) "__proto__") as [_ | _].
    + exact IH.
    + rewrite lookup_insert_ne by done. exact IH.
Qed.

Lemma foldl_assign_proto (l : list A) (m : gmap string string) :
  foldl (fun m x => assign m (name x) (verboseOr (verbose x) (name x))) m l
  !! "__proto__"
  = m !! "__proto__".
Proof.
  induction l as [| x l IH] using rev_ind; [reflexivity |].
  rewrite foldl_app. simpl. unfold assign at 1.
  destruct (String.eqb_spec (name x) "__proto__") as [_ | E]; [exact IH |].
  rewrite lookup_insert_ne by done. exact IH.
Qed.

Lemma find_last_None (l : list A) (key : string) :
  List.find (fun x => String.eqb (name x) key) (rev l) = None
  <-> key ∉ map name l.
Proof.
  split.
  - intros H Hin. apply list_elem_of_fmap in Hin as (x & -> & Hx).
    apply list_elem_of_In, in_rev in Hx.
    pose proof (find_none _ _ H x Hx) as Hf. simpl in Hf.
    by rewrite String.eqb_refl in Hf.
  - intros Hn.
    destruct (List.find _ (rev l)) as [x |] eqn:Hf; [| reflexivity].
    apply find_some in Hf as [Hx He]. apply String.eqb_eq in He.
    destruct Hn. apply list_elem_of_fmap. exists x. split; [done |].
    by apply list_elem_of_In, in_rev.
Qed.

End AssignAll.

Lemma createVerboseMap_lookup_key (dataset : Dataset.t) (key : string) :
  key <> "__proto__" ->
  createVerboseMap (Some dataset) !! key
  = match lastMetric key (ensureIsArray (Dataset.metrics dataset)) with
    | Some v => Some v
    | None => lastColumn key (ensureIsArray (Dataset.columns dataset))
    end.
Proof.
  intros Hk. unfold createVerboseMap, lastMetric, lastColumn. simpl.
  rewrite (foldl_assign_lookup Metric.metric_name Metric.verbose_name _ _ _ Hk).
  destruct (_ <$> List.find _ (rev (ensureIsArray (Dataset.metrics dataset))));
    [reflexivity |].
  rewrite (foldl_assign_lookup Column.column_name Column.verbose_name _ _ _ Hk).
  rewrite lookup_empty. by destruct (_ <$> List.find _ _).
Qed.

Lemma createVerboseMap_lookup_proto (dataset : option Dataset.t) :
  createVerboseMap dataset !! "__proto__" = None.
Proof.
  unfold createVerboseMap.
  rewrite (foldl_assign_proto Metric.metric_name Metric.verbose_name).
  rewrite (foldl_assign_proto Column.column_name Column.verbose_name).
  apply lookup_empty.
Qed.

(** X15: in the map [createVerboseMap] builds, a name is bound to the
    verbose name of the last metric of that name, and when no metric has
    it, to that of the last column of that name; a name no metric and no
    column has is not bound. The key "__proto__" is never bound, and an
    undefined dataset gives the empty map. *)
Theorem createVerboseMap_lookup (dataset : Dataset.t) (key : string) :
  createVerboseMap (Some dataset) !! key
  = (if decide (key = "__proto__") then None
     else match lastMetric key (ensureIsArray (Dataset.metrics dataset)) with
          | Some v => Some v
          | None => lastColumn key (ensureIsArray (Dataset.columns dataset))
          end)
  /\ createVerboseMap None = ∅
  /\ createVerboseMap (Some (Dataset.mk None None)) = ∅.
Proof.
  split; [| split; reflexivity].
  case_decide as Hk.
  - subst key. apply createVerboseMap_lookup_proto.
  - by apply createVerboseMap_lookup_key.
Qed.

Lemma verboseOr_cases (verbose_name : option string) (name : string) :
  verboseOr verbose_name name = name
  \/ (verboseOr verbose_name name <> ""
      /\ verbose_name = Some (verboseOr verbose_name name)).
Proof.
  unfold verboseOr. destruct verbose_name as [s |]; [| by left].
  destruct (String.eqb_spec s "") as [-> | Hs]; [by left | by right].
Qed.

(** X16: the names bound in the map are exactly the names of the columns
    and of the metrics of the dataset, the name "__proto__" excepted. *)
Theorem createVerboseMap_keys (dataset : Dataset.t) (key : string) :
  is_Some (createVerboseMap (Some dataset) !! key)
  <-> key <> "__proto__"
      /\ (key ∈ map Column.column_name (ensureIsArray (Dataset.columns dataset))
          \/ key ∈ map Metric.metric_name (ensureIsArray (Dataset.metrics dataset))).
Proof.
  destruct (decide (key = "__proto__")) as [-> | Hk].
  - rewrite createVerboseMap_lookup_proto. split.
    + intros [? ?]. discriminate.
    + intros [? _]. done.
  - rewrite (createVerboseMap_lookup_key dataset key Hk).
    unfold lastMetric, lastColumn.
    pose proof (find_last_None Metric.metric_name
                  (ensureIsArray (Dataset.metrics dataset)) key) as Hm.
    pose proof (find_last_None Column.column_name
                  (ensureIsArray (Dataset.columns dataset)) key) as Hc.
    destruct (List.find _ (rev (ensureIsArray (Dataset.metrics dataset))))
      as [metric |]; simpl.
    + split; [| by eexists]. intros _. split; [done |]. right.
      destruct (decide (key ∈ map Metric.metric_name
                          (ensureIsArray (Dataset.metrics dataset))))
        as [? | Hn]; [done |].
      apply Hm in Hn. discriminate.
    + destruct (List.find _ (rev (ensureIsArray (Dataset.columns dataset))))
        as [column |]; simpl.
      * split; [| by eexists]. intros _. split; [done |]. left.
        destruct (decide (key ∈ map Column.column_name
                            (ensureIsArray (Dataset.columns dataset))))
          as [? | Hn]; [done |].
        apply Hc in Hn. discriminate.
      * split; [intros [? ?]; discriminate |].
        intros [_ [Hin | Hin]].
        -- by apply (proj1 Hc) in Hin.
        -- by apply (proj1 Hm) in Hin.
Qed.

(** X17: every value of the map is either the name it is bound to or the
    non-empty verbose name of a metric or column of that name; so a
    non-empty name is never bound to the empty string. *)
Theorem createVerboseMap_values (dataset : Dataset.t) (key v : string) :
  createVerboseMap (Some dataset) !! key = Some v ->
  (v = key
   \/ (v <> ""
       /\ ((exists metric : Metric.t,
               metric ∈ ensureIsArray (Dataset.metrics dataset)
               /\ Metric.metric_name metric = key
               /\ Metric.verbose_name metric = Some v)
           \/ (exists column : Column.t,
                  column ∈ ensureIsArray (Dataset.columns dataset)
                  /\ Column.column_name column = key
                  /\ Column.verbose_name column = Some v))))
  /\ (key <> "" -> v <> "").
Proof.
  intros Hv.
  assert (key <> "__proto__") as Hk.
  { intros ->. rewrite createVerboseMap_lookup_proto in Hv. discriminate. }
  rewrite (createVerboseMap_lookup_key dataset key Hk) in Hv.
  assert (v = key
          \/ (v <> ""
              /\ ((exists metric : Metric.t,
                      metric ∈ ensureIsArray (Dataset.metrics dataset)
                      /\ Metric.metric_name metric = key
                      /\ Metric.verbose_name metric = Some v)
                  \/ (exists column : Column.t,
                         column ∈ ensureIsArray (Dataset.columns dataset)
                         /\ Column.column_name column = key
                         /\ Column.verbose_name column = Some v)))) as H.
  { unfold lastMetric, lastColumn in Hv.
    destruct (List.find _ (rev (ensureIsArray (Dataset.metrics dataset))))
      as [metric |] eqn:Hm; simpl in Hv.
    - injection Hv as <-. apply find_some in Hm as [Hin He].
      apply String.eqb_eq in He. apply in_rev, list_elem_of_In in Hin.
      destruct (verboseOr_cases (Metric.verbose_name metric)
                  (Metric.metric_name metric)) as [E | [Hne Hsome]].
      + left. by rewrite E.
      + right. split; [done |]. left. by exists metric.
    - destruct (List.find _ (rev (ensureIsArray (Dataset.columns dataset))))
        as [column |] eqn:Hc; simpl in Hv; [| discriminate].
      injection Hv as <-. apply find_some in Hc as [Hin He].
      apply String.eqb_eq in He. apply in_rev, list_elem_of_In in Hin.
      destruct (verboseOr_cases (Column.verbose_name column)
                  (Column.column_name column)) as [E | [Hne Hsome]].
      + left. by rewrite E.
      + right. split; [done |]. right. by exists column. }
  split; [exact H |].
  intros Hkey. destruct H as [-> | [Hne _]]; done.
Qed.

Lemma createVerboseMap_values_witness :
  createVerboseMap
    (Some (Dataset.mk
             (Some [Column.mk "ds" (Some "Date") true;
                    Column.mk "gender" None false])
             (Some [Metric.mk "count" (Some "COUNT(*)")])))
  !! "ds" = Some "Date"
  /\ "Date" <> "".
Proof.
  split; [vm_compute; reflexivity |].
  refine (proj2 (createVerboseMap_values
                   (Dataset.mk
                      (Some [Column.mk "ds" (Some "Date") true;
                             Column.mk "gender" None false])
                      (Some [Metric.mk "count" (Some "COUNT(*)")]))
                   "ds" "Date" _) _).
  - vm_compute. reflexivity.
  - discriminate.
Defined.

(** * [ChartSelect] without races *)





